(** * AWS Toolkit for VS Code: follow-up dispatcher and workspace-creation wizard

    A shallow embedding of

    - [src/amazonq/webview/ui/followUps/handler.ts]
      ([FollowUpInteractionHandler]), and
    - the create-workspace webview controller ([CawsCreateWebview],
      [showCreateWorkspace]),

    together with the properties their specification states about them.

    Both programs are glue code: they call collaborators (the chat
    surface, the tab registry, the conversation backend, the remote
    service client, the selection prompts) in a fixed order.  A run is
    therefore modelled as the value it produces together with the
    ordered list of collaborator calls it made; what a collaborator
    answers is supplied by an environment record, over which every
    theorem quantifies. *)

From Stdlib Require Import Ascii String List Bool Arith ZArith Lia.
From stdpp Require Import base option list strings gmap.

Import ListNotations.

(** ** Results and the call-trace monad *)

(** What a JavaScript [throw] (or a rejected promise) carries, as far as
    the code under study inspects it: the two error classes the wizard
    raises itself, and any other error object, of which the code reads
    the [statusCode] property only. *)
Inductive Exn : Type :=
| CancellationError (agent : string)
| TypeError (message : string)
| JsError (statusCode : option Z) (message : string).

(** [err.statusCode] for a caught error. *)
Definition statusCode_of (e : Exn) : option Z :=
  match e with
  | JsError c _ => c
  | _ => None
  end.

Inductive Res (A : Type) : Type :=
| Ok (a : A)
| Throw (e : Exn).
Arguments Ok {A} a.
Arguments Throw {A} e.

(** A computation over events [E]: its outcome and the collaborator calls
    it made, oldest first. *)
Definition M (E A : Type) : Type := (Res A * list E)%type.

Definition ret {E A} (a : A) : M E A := (Ok a, []).
Definition throw {E A} (e : Exn) : M E A := (Throw e, []).
Definition emit {E} (ev : E) : M E unit := (Ok tt, [ev]).

Definition bind {E A B} (m : M E A) (k : A -> M E B) : M E B :=
  match m with
  | (Ok a, t) => let '(r, t') := k a in (r, t ++ t')
  | (Throw e, t) => (Throw e, t)
  end.

(** [promise.catch(handler)] *)
Definition catch {E A} (m : M E A) (h : Exn -> M E A) : M E A :=
  match m with
  | (Ok a, t) => (Ok a, t)
  | (Throw e, t) => let '(r, t') := h e in (r, t ++ t')
  end.

(** A collaborator call: the event records the call with its answer, and
    the answer is handed to the caller. *)
Definition call {E A} (ev : Res A -> E) (answer : Res A) : M E A :=
  (answer, [ev answer]).

Definition outcome {E A} (m : M E A) : Res A := fst m.
Definition trace {E A} (m : M E A) : list E := snd m.

Declare Scope js_scope.
Delimit Scope js_scope with js.
Notation "'let!' x ':=' m 'in' k" := (bind m (fun x => k))
  (at level 10, x name, m at level 100, k at level 200) : js_scope.
Notation "'do!' m 'in' k" := (bind m (fun _ => k))
  (at level 10, m at level 100, k at level 200) : js_scope.

(** ** JavaScript string operations used by the wizard *)

Module JS.

Definition is_upper (c : ascii) : bool :=
  (65 <=? nat_of_ascii c)%nat && (nat_of_ascii c <=? 90)%nat.
Definition is_lower (c : ascii) : bool :=
  (97 <=? nat_of_ascii c)%nat && (nat_of_ascii c <=? 122)%nat.
Definition is_digit (c : ascii) : bool :=
  (48 <=? nat_of_ascii c)%nat && (nat_of_ascii c <=? 57)%nat.

(** The regular-expression class [\w]: letters, digits and [_]. *)
Definition is_word (c : ascii) : bool :=
  is_upper c || is_lower c || is_digit c || Ascii.eqb c "_"%char.

(** [s.startsWith(p)] *)
Fixpoint starts_with (p s : string) : bool :=
  match p, s with
  | EmptyString, _ => true
  | String a p', String b s' => Ascii.eqb a b && starts_with p' s'
  | String _ _, EmptyString => false
  end.

Fixpoint drop (n : nat) (s : string) : string :=
  match n, s with
  | O, _ => s
  | S n', String _ s' => drop n' s'
  | S _, EmptyString => EmptyString
  end.

(** [s.replace(pat, rep)] for a string pattern: only the first
    occurrence of [pat] is replaced; without one, [s] is returned. *)
Fixpoint replace (pat rep s : string) : string :=
  if starts_with pat s then rep +:+ drop (String.length pat) s
  else match s with
       | EmptyString => EmptyString
       | String c s' => String c (replace pat rep s')
       end.

(** [s.split(sep)] for a one-character separator: never an empty
    array, [''.split('/')] is [['']]. *)
Fixpoint split (sep : ascii) (s : string) : list string :=
  match s with
  | EmptyString => [EmptyString]
  | String c s' =>
      if Ascii.eqb c sep then EmptyString :: split sep s'
      else match split sep s' with
           | seg :: segs => String c seg :: segs
           | [] => [String c EmptyString]
           end
  end.

(** [arr.pop()]: the last element, [undefined] on an empty array. *)
Definition pop (l : list string) : option string := List.last (map Some l) None.

(** [s.replace(/\.git$/, '')]: the match can only sit at the end of
    the input (no multiline flag), and is searched left to right. *)
Fixpoint replace_dot_git_at_end (s : string) : string :=
  if String.eqb s ".git" then EmptyString
  else match s with
       | EmptyString => EmptyString
       | String c s' => String c (replace_dot_git_at_end s')
       end.

(** [/^[\w]+@/.test(s)] is [word_run_then_at s]: at least one [\w]
    character from the start, then [@]. *)
Fixpoint word_run_then_at (s : string) : bool :=
  match s with
  | EmptyString => false
  | String c s' =>
      is_word c &&
      match s' with
      | String "@"%char _ => true
      | _ => word_run_then_at s'
      end
  end.

(** Truthiness of a string: [!s] holds for [undefined] and for ['']. *)
Definition falsy (s : option string) : bool :=
  match s with
  | None => true
  | Some EmptyString => true
  | Some _ => false
  end.

(** [s] has no slash. *)
Definition slash_free (s : string) : Prop := ~ In "/"%char (list_ascii_of_string s).

(** [s] is made of word characters. *)
Definition all_word (s : string) : Prop :=
  forallb is_word (list_ascii_of_string s) = true.

End JS.

(** ** The host's URI parser

    [vscode.Uri.parse(value, strict)] belongs to the editor host, not to
    this repository.  It splits [value] with the regular expression of
    RFC 3986, appendix B (an optional scheme closed by a colon, an
    optional authority after two slashes, a path, an optional query
    after a question mark, an optional fragment after a hash sign),
    percent-decodes the components, normalises the path of [http],
    [https] and [file] URIs to start with a slash, and validates the
    result.  The split and the checks are modelled here; the decoding of
    a component that holds a percent escape is asked of the environment
    ([decode]), a component without one is kept as it is. *)

Module Uri.

Record t : Type := mk {
  scheme : string;
  authority : string;
  path : string;
  query : string;
  fragment : string
}.

Definition one_of (cs : string) (c : ascii) : bool :=
  existsb (Ascii.eqb c) (list_ascii_of_string cs).

(** The longest prefix of [s] without a character of [stops], and
    what follows it: a greedy [[^stops]*]. *)
Fixpoint span (stops : string) (s : string) : string * string :=
  match s with
  | EmptyString => (EmptyString, EmptyString)
  | String c s' =>
      if one_of stops c then (EmptyString, s)
      else let '(run, rest) := span stops s' in (String c run, rest)
  end.

(** The scheme group: a non-empty run without colon, slash, question
    mark or hash sign, closed by a colon; the group is optional. *)
Definition match_scheme (s : string) : string * string :=
  match span ":/?#" s with
  | (String c run, String ":"%char rest) => (String c run, rest)
  | _ => (EmptyString, s)
  end.

(** The authority group: two slashes, then a run without slash,
    question mark or hash sign; optional. *)
Definition match_authority (s : string) : string * string :=
  if JS.starts_with "//" s then span "/?#" (JS.drop 2 s)
  else (EmptyString, s).

(** The query group: a question mark, then a run without hash sign;
    optional.  (The path group before it is a run without question
    mark or hash sign.) *)
Definition match_query (s : string) : string * string :=
  match s with
  | String "?"%char s' => span "#" s'
  | _ => (EmptyString, s)
  end.

(** The fragment group: a hash sign, then any characters up to a line
    terminator; optional. *)
Definition match_fragment (s : string) : string :=
  match s with
  | String "#"%char s' => fst (span (String "010"%char (String "013"%char EmptyString)) s')
  | _ => EmptyString
  end.

Definition is_hex_like (c : ascii) : bool :=
  JS.is_digit c || JS.is_upper c || JS.is_lower c.

(** The component holds a percent sign followed by two characters of
    0-9, A-Z, a-z. *)
Fixpoint has_escape (s : string) : bool :=
  match s with
  | EmptyString => false
  | String c s' =>
      (Ascii.eqb c "%"%char &&
       match s' with
       | String a (String b _) => is_hex_like a && is_hex_like b
       | _ => false
       end) || has_escape s'
  end.

Definition percentDecode (decode : string -> string) (s : string) : string :=
  if has_escape s then decode s else s.

Definition _referenceResolution (scheme path : string) : string :=
  if String.eqb scheme "https" || String.eqb scheme "http" || String.eqb scheme "file" then
    match path with
    | EmptyString => "/"
    | String c _ => if Ascii.eqb c "/"%char then path else "/" +:+ path
    end
  else path.

(** The scheme is a word character followed by word characters, plus,
    dot or minus signs. *)
Definition _schemePattern (scheme : string) : bool :=
  match scheme with
  | EmptyString => false
  | String c s' =>
      JS.is_word c &&
      forallb (fun x => JS.is_word x || one_of "+.-" x) (list_ascii_of_string s')
  end.

(** The double-quote character, and a text between two of them, as
    the host's error messages print a component. *)
Definition dquote : string := String "034"%char EmptyString.

Definition quoted (s : string) : string := dquote +:+ s +:+ dquote.

Definition _validateUri (u : t) (strict : bool) : Res t :=
  if String.eqb (scheme u) EmptyString && strict then
    Throw (JsError None
             ("[UriError]: Scheme is missing: {scheme: " +:+ quoted EmptyString
              +:+ ", authority: " +:+ quoted (authority u)
              +:+ ", path: " +:+ quoted (path u)
              +:+ ", query: " +:+ quoted (query u)
              +:+ ", fragment: " +:+ quoted (fragment u) +:+ "}"))
  else if negb (String.eqb (scheme u) EmptyString) && negb (_schemePattern (scheme u)) then
    Throw (JsError None "[UriError]: Scheme contains illegal characters.")
  else if negb (String.eqb (path u) EmptyString) then
    if negb (String.eqb (authority u) EmptyString) then
      if JS.starts_with "/" (path u) then Ok u
      else Throw (JsError None
                    ("[UriError]: If a URI contains an authority component, then the path component must either be empty or begin with a slash ("
                     +:+ quoted "/" +:+ ") character"))
    else
      if JS.starts_with "//" (path u) then
        Throw (JsError None
                 ("[UriError]: If a URI does not contain an authority component, then the path cannot begin with two slash characters ("
                  +:+ quoted "//" +:+ ")"))
      else Ok u
  else Ok u.

Definition _schemeFix (scheme : string) (strict : bool) : string :=
  if String.eqb scheme EmptyString && negb strict then "file" else scheme.

Definition parse (decode : string -> string) (value : string) (strict : bool) : Res t :=
  let '(sch, r1) := match_scheme value in
  let '(auth, r2) := match_authority r1 in
  let '(pth, r3) := span "?#" r2 in
  let '(qry, r4) := match_query r3 in
  let frg := match_fragment r4 in
  let sch' := _schemeFix sch strict in
  _validateUri
    {| scheme := sch';
       authority := percentDecode decode auth;
       path := _referenceResolution sch' (percentDecode decode pth);
       query := percentDecode decode qry;
       fragment := percentDecode decode frg |}
    strict.

End Uri.

(** ** The create-workspace wizard *)

Module CreateWorkspace.

(** *** Data *)

(** The fields the wizard reads of the client's resource types
    ([CawsOrg], [CawsProject], [CawsBranch] of [cawsClient]). *)
Record CawsOrg : Type := { org_name : string }.
Record CawsProject : Type := { project_name : string; project_org : CawsOrg }.
Record CawsRepo : Type := { repo_name : string }.
Record CawsBranch : Type := { branch_name : string; branch_repo : CawsRepo }.

(** Modelled from the spec: the settings type [WorkspaceSettings] is
    declared in [commands], which is not among the sources; the spec
    gives it as a flat record of four provisioning options: alias,
    instance type, inactivity timeout and persistent-storage choice. *)
Record WorkspaceSettings : Type := {
  alias : option string;
  instanceType : string;
  inactivityTimeoutMinutes : Z;
  persistentStorage : Z
}.

Inductive SourceResponse : Type :=
| LinkedResponse (selectedProject : CawsProject) (selectedBranch : CawsBranch)
| CloneResponse (repositoryUrl : string)
| EmptyResponse.

Record Ide : Type := { ide_name : string }.
Record RepositoryInput : Type := { repositoryName : string; branchName : string }.

(** The object literal handed to [createDevelopmentWorkspace].  The
    spread [...settings] comes last in each literal; the settings have
    no key in common with the fields written before it, so it adds its
    four options and overrides nothing.  [repositories] is present in
    the linked variant only. *)
Record CreateDevelopmentWorkspaceRequest : Type := {
  ides : list Ide;
  projectName : string;
  organizationName : string;
  repositories : option (list RepositoryInput);
  settings : WorkspaceSettings
}.

Record CreateProjectRequest : Type := {
  name : string;
  cp_organizationName : string;
  displayName : string;
  description : string
}.

Record DevelopmentWorkspaceId : Type := {
  ws_id : string;
  ws_org : string;
  ws_project : string
}.

Record RepoRef : Type := { rr_name : string; location : Uri.t }.

(** *** Collaborator calls *)

Inductive Event : Type :=
| SelectProject (answer : Res (option CawsProject))
| SelectOrg (answer : Res (option CawsOrg))
| GetProject (name organizationName : string) (answer : Res CawsProject)
| CreateProject (request : CreateProjectRequest) (answer : Res CawsProject)
| CreateDevelopmentWorkspace (request : CreateDevelopmentWorkspaceRequest)
    (answer : Res DevelopmentWorkspaceId)
| CloneToWorkspace (workspace : DevelopmentWorkspaceId) (repo : RepoRef)
    (answer : Res unit)
| OpenDevelopmentWorkspace (workspace : DevelopmentWorkspaceId) (answer : Res unit).

(** What the world outside the wizard answers: the host's percent
    decoding and message bundle, the user at the two selection prompts
    ([selectCawsResource] for a project and for an organization), the
    service client, and the two functions the wizard imports from
    [model].  Every collaborator is called at most once in a
    submission, so an answer that depends on the arguments only loses
    no behaviour. *)
Record Env : Type := {
  decodeURIComponent : string -> string;
  localize : string -> string -> string;
  selectCawsResource_project : Res (option CawsProject);
  selectCawsResource_org : Res (option CawsOrg);
  client_getProject : string -> string -> Res CawsProject;
  client_createProject : CreateProjectRequest -> Res CawsProject;
  client_createDevelopmentWorkspace :
    CreateDevelopmentWorkspaceRequest -> Res DevelopmentWorkspaceId;
  model_cloneToWorkspace : DevelopmentWorkspaceId -> RepoRef -> Res unit;
  model_openDevelopmentWorkspace : DevelopmentWorkspaceId -> Res unit
}.

Local Open Scope js_scope.

Section Wizard.

Variable env : Env.

Definition selectProject : M Event (option CawsProject) :=
  call SelectProject (selectCawsResource_project env).

Definition selectOrg : M Event (option CawsOrg) :=
  call SelectOrg (selectCawsResource_org env).

Definition getProject (name organizationName : string) : M Event CawsProject :=
  call (GetProject name organizationName) (client_getProject env name organizationName).

Definition createProject (request : CreateProjectRequest) : M Event CawsProject :=
  call (CreateProject request) (client_createProject env request).

Definition createDevelopmentWorkspace (request : CreateDevelopmentWorkspaceRequest)
  : M Event DevelopmentWorkspaceId :=
  call (CreateDevelopmentWorkspace request) (client_createDevelopmentWorkspace env request).

Definition cloneToWorkspace (workspace : DevelopmentWorkspaceId) (repo : RepoRef)
  : M Event unit :=
  call (CloneToWorkspace workspace repo) (model_cloneToWorkspace env workspace repo).

Definition openDevelopmentWorkspace (workspace : DevelopmentWorkspaceId) : M Event unit :=
  call (OpenDevelopmentWorkspace workspace) (model_openDevelopmentWorkspace env workspace).

Definition VSCode : list Ide := [ {| ide_name := "VSCode" |} ].

Definition createEmptyWorkpace (settings : WorkspaceSettings) : M Event DevelopmentWorkspaceId :=
  let! project := selectProject in
  match project with
  | None => throw (CancellationError "user")
  | Some project =>
      createDevelopmentWorkspace
        {| ides := VSCode;
           projectName := project_name project;
           organizationName := org_name (project_org project);
           repositories := None;
           settings := settings |}
  end.

Definition createLinkedWorkspace (settings : WorkspaceSettings)
    (selectedProject : CawsProject) (selectedBranch : CawsBranch)
  : M Event DevelopmentWorkspaceId :=
  createDevelopmentWorkspace
    {| ides := VSCode;
       projectName := project_name selectedProject;
       organizationName := org_name (project_org selectedProject);
       repositories :=
         Some [ {| repositoryName := repo_name (branch_repo selectedBranch);
                   branchName := JS.replace "refs/heads/" EmptyString (branch_name selectedBranch) |} ];
       settings := settings |}.

Definition getUnlinkedProject (organizationName repoName : string) : M Event CawsProject :=
  let! existingProject :=
    catch (let! p := getProject repoName organizationName in ret (Some p))
          (fun err =>
             if decide (statusCode_of err = Some 404%Z) then ret None
             else throw err) in
  match existingProject with
  | Some existingProject => ret existingProject
  | None =>
      createProject
        {| name := repoName;
           cp_organizationName := organizationName;
           displayName := repoName;
           description :=
             localize env "aws.caws.createProject.description"
               "Created by AWS Toolkit for Workspaces" |}
  end.

Definition isSchemeless (repositoryUrl : string) : bool :=
  JS.word_run_then_at repositoryUrl.

Definition withScheme (repositoryUrl : string) : string :=
  if isSchemeless repositoryUrl then "ssh://" +:+ repositoryUrl else repositoryUrl.

(** [path.split('/').pop()?.replace(/\.git$/, '')] *)
Definition repoName_of_path (path : string) : option string :=
  JS.replace_dot_git_at_end <$> JS.pop (JS.split "/" path).

Definition parseRepository (repositoryUrl : string) : Res (Uri.t * option string) :=
  match Uri.parse (decodeURIComponent env) (withScheme repositoryUrl) true with
  | Ok repoUri => Ok (repoUri, repoName_of_path (Uri.path repoUri))
  | Throw e => Throw e
  end.

Definition cloneRepository (settings : WorkspaceSettings) (repositoryUrl : string)
  : M Event DevelopmentWorkspaceId :=
  let! parsed := (parseRepository repositoryUrl, []) in
  let '(repoUri, repoName) := parsed in
  match repoName with
  | None | Some EmptyString => throw (TypeError "No repository name found")
  | Some repoName =>
      let! org := selectOrg in
      match org with
      | None => throw (CancellationError "user")
      | Some org =>
          let! existingProject := getUnlinkedProject (org_name org) repoName in
          let! workspace :=
            createDevelopmentWorkspace
              {| ides := VSCode;
                 projectName := project_name existingProject;
                 organizationName := org_name (project_org existingProject);
                 repositories := None;
                 settings := settings |} in
          do! cloneToWorkspace workspace {| rr_name := repoName; location := repoUri |} in
          ret workspace
      end
  end.

Definition submit (settings : WorkspaceSettings) (source : SourceResponse) : M Event unit :=
  let! workspace :=
    match source with
    | EmptyResponse => createEmptyWorkpace settings
    | LinkedResponse selectedProject selectedBranch =>
        createLinkedWorkspace settings selectedProject selectedBranch
    | CloneResponse repositoryUrl => cloneRepository settings repositoryUrl
    end in
  openDevelopmentWorkspace workspace.

End Wizard.

(** *** Observations on the calls of a submission *)

Definition is_CreateProject (ev : Event) : bool :=
  match ev with CreateProject _ _ => true | _ => false end.

(** The request [getUnlinkedProject] sends when it creates a project. *)
Definition new_project_request (env : Env) (organizationName repoName : string)
  : CreateProjectRequest :=
  {| name := repoName;
     cp_organizationName := organizationName;
     displayName := repoName;
     description := localize env "aws.caws.createProject.description"
                      "Created by AWS Toolkit for Workspaces" |}.

Definition is_CreateDevelopmentWorkspace (ev : Event) : bool :=
  match ev with CreateDevelopmentWorkspace _ _ => true | _ => false end.

(** The provisioning request of a linked submission. *)
Definition linked_request (settings : WorkspaceSettings)
    (selectedProject : CawsProject) (repo : CawsRepo) (branch : string)
    : CreateDevelopmentWorkspaceRequest :=
  {| ides := [ {| ide_name := "VSCode" |} ];
     projectName := project_name selectedProject;
     organizationName := org_name (project_org selectedProject);
     repositories := Some [ {| repositoryName := repo_name repo; branchName := branch |} ];
     settings := settings |}.

(** The selections a variant asks of the user during the submission
    have been answered with a resource in [pre]: a project for the
    empty variant, an organization for the clone variant; the linked
    variant asks nothing (project and branch come with the form). *)
Definition selections_succeeded (source : SourceResponse) (pre : list Event) : Prop :=
  match source with
  | EmptyResponse => exists project, In (SelectProject (Ok (Some project))) pre
  | CloneResponse _ => exists org, In (SelectOrg (Ok (Some org))) pre
  | LinkedResponse _ _ => True
  end.

(** A provisioning call asks for the IDE [VSCode], and for it alone. *)
Definition provisions_for_VSCode (ev : Event) : Prop :=
  match ev with
  | CreateDevelopmentWorkspace request _ => ides request = [ {| ide_name := "VSCode" |} ]
  | _ => True
  end.

(** *** A sample setting *)

(** A service that knows no project yet and creates what it is asked
    for, and a user who picks the organization [acme]. *)
Definition sample_org : CawsOrg := {| org_name := "acme" |}.

Definition sample_project : CawsProject :=
  {| project_name := "widgets"; project_org := sample_org |}.

Definition sample_settings : WorkspaceSettings :=
  {| alias := Some "dev";
     instanceType := "dev.standard1.small";
     inactivityTimeoutMinutes := 15;
     persistentStorage := 16 |}.

Definition sample_workspace (request : CreateDevelopmentWorkspaceRequest)
  : DevelopmentWorkspaceId :=
  {| ws_id := "ws-1"; ws_org := organizationName request; ws_project := projectName request |}.

Definition sample_env : Env :=
  {| decodeURIComponent := fun s => s;
     localize := fun _ message => message;
     selectCawsResource_project := Ok (Some sample_project);
     selectCawsResource_org := Ok (Some sample_org);
     client_getProject := fun _ _ => Throw (JsError (Some 404%Z) "Not Found");
     client_createProject :=
       fun request =>
         Ok {| project_name := name request;
               project_org := {| org_name := cp_organizationName request |} |};
     client_createDevelopmentWorkspace := fun request => Ok (sample_workspace request);
     model_cloneToWorkspace := fun _ _ => Ok tt;
     model_openDevelopmentWorkspace := fun _ => Ok tt |}.

End CreateWorkspace.

(** ** The follow-up interaction handler *)

Module FollowUps.

(** *** Data *)

(** The fields of the chat library's [ChatItemFollowUp] that the
    handler reads; [type] and [prompt] are optional. *)
Record ChatItemFollowUp : Type := {
  fu_type : option string;
  prompt : option string;
  pillText : string
}.

Inductive ChatItemType : Type := PROMPT | ANSWER_STREAM | ANSWER.

Record ChatItem : Type := { ci_type : ChatItemType; body : string }.

Inductive NotificationType : Type := WARNING.

(** An entry of the tab registry, as the handler writes it. *)
Record Tab : Type := {
  id : string;
  status : string;
  type : string;
  isSelected : bool;
  openInteractionType : string
}.

(** What the handler passes to [mynahUI.updateStore]: the two loading
    flags, or the data the tab-data generator (built from the two
    feature switches of the constructor) returns for its arguments. *)
Inductive StoreData : Type :=
| LoadingFlags (loadingChat promptInputDisabledState : bool)
| GeneratedTabData (isWeaverbirdEnabled isGumbyEnabled : bool)
    (tabType : string) (needWelcomeMessages : bool) (taskName commandName : string).

(** *** Collaborator calls *)

Inductive Event : Type :=
| UpdateStore (tabID : string) (data : StoreData) (answer : option string)
| AddChatItem (tabID : string) (item : ChatItem)
| Notify (content : string) (type : NotificationType)
| OnAuthFollowUpClicked (tabID authType : string)
| OnFollowUpClicked (tabID messageId : string) (followUp : ChatItemFollowUp)
| OnUpdateTabType (tabID : string)
| OnKnownTabOpen (tabID : string)
| UpdateTabStatus (tabID status : string)
| ResetTabTimer (tabID : string)
| AddTab (tab : Tab)
| UpdateTabTypeFromUnknown (tabID tabType : string).

(** [FollowUpInteractionHandlerProps], with the collaborators replaced
    by what they answer: [updateStore] returns the identifier of the
    tab it created, or [undefined].  [noMoreTabsTooltip] is the text
    constant of [uiComponentsTexts]. *)
Record Props : Type := {
  mynahUI_updateStore : string -> StoreData -> option string;
  isWeaverbirdEnabled : bool;
  isGumbyEnabled : bool;
  noMoreTabsTooltip : string
}.

Local Open Scope js_scope.

Section Handler.

Variable props : Props.

Definition updateStore (tabID : string) (data : StoreData) : M Event (option string) :=
  let answer := mynahUI_updateStore props tabID data in
  (Ok answer, [UpdateStore tabID data answer]).

Definition getTabData (tabType : string) (needWelcomeMessages : bool)
    (taskName commandName : string) : StoreData :=
  GeneratedTabData (isWeaverbirdEnabled props) (isGumbyEnabled props)
    tabType needWelcomeMessages taskName commandName.

(** [['full-auth', 're-auth'].includes(t)] *)
Definition is_auth_type (t : string) : bool :=
  existsb (String.eqb t) ["full-auth"; "re-auth"].

(** The guard of the first branch: [followUp.type] is defined and is
    one of the two authentication kinds; the kind is returned, as the
    branch passes it on. *)
Definition auth_type (followUp : ChatItemFollowUp) : option string :=
  match fu_type followUp with
  | Some t => if is_auth_type t then Some t else None
  | None => None
  end.

Definition onFollowUpClicked (tabID messageId : string) (followUp : ChatItemFollowUp)
  : M Event unit :=
  match auth_type followUp with
  | Some t => emit (OnAuthFollowUpClicked tabID t)
  | None =>
      do! match prompt followUp with
          | Some p =>
              do! updateStore tabID (LoadingFlags true true) in
              do! emit (AddChatItem tabID {| ci_type := PROMPT; body := p |}) in
              do! emit (AddChatItem tabID {| ci_type := ANSWER_STREAM; body := EmptyString |}) in
              do! emit (UpdateTabStatus tabID "busy") in
              emit (ResetTabTimer tabID)
          | None => ret tt
          end in
      emit (OnFollowUpClicked tabID messageId followUp)
  end.

Definition onWelcomeFollowUpClicked (tabID welcomeFollowUpType : string) : M Event unit :=
  if String.eqb welcomeFollowUpType "assign-code-task" then
    let! newTabId := updateStore EmptyString (getTabData "wb" true "Q - Dev" "/dev") in
    match newTabId with
    | Some newTabId =>
        do! emit (AddTab {| id := newTabId;
                            status := "busy";
                            type := "unknown";
                            isSelected := true;
                            openInteractionType := "click" |}) in
        do! emit (UpdateTabTypeFromUnknown tabID "cwc") in
        do! emit (OnUpdateTabType tabID) in
        do! emit (UpdateTabTypeFromUnknown newTabId "wb") in
        do! emit (OnUpdateTabType newTabId) in
        emit (OnKnownTabOpen newTabId)
    | None => emit (Notify (noMoreTabsTooltip props) WARNING)
    end
  else if String.eqb welcomeFollowUpType "continue-to-chat" then
    do! emit (AddChatItem tabID
                {| ci_type := ANSWER; body := "Ok, please write your question below." |}) in
    do! emit (UpdateTabTypeFromUnknown tabID "cwc") in
    emit (OnUpdateTabType tabID)
  else ret tt.

End Handler.

(** *** Observations on the calls of the handler *)

Definition is_AddChatItem (ev : Event) : bool :=
  match ev with AddChatItem _ _ => true | _ => false end.

Definition is_OnFollowUpClicked (ev : Event) : bool :=
  match ev with OnFollowUpClicked _ _ _ => true | _ => false end.

Definition is_warning (ev : Event) : bool :=
  match ev with Notify _ WARNING => true | _ => false end.

(** How often the backend is told that tab [tabID] has been opened. *)
Definition known_tab_opens (tabID : string) (calls : list Event) : nat :=
  length (List.filter
            (fun ev => match ev with
                       | OnKnownTabOpen t => String.eqb t tabID
                       | _ => false
                       end) calls).

(** The calls of the prompt branch, in the order the handler makes them. *)
Definition prompt_calls (props : Props) (tabID p : string) : list Event :=
  [ UpdateStore tabID (LoadingFlags true true)
      (mynahUI_updateStore props tabID (LoadingFlags true true));
    AddChatItem tabID {| ci_type := PROMPT; body := p |};
    AddChatItem tabID {| ci_type := ANSWER_STREAM; body := EmptyString |};
    UpdateTabStatus tabID "busy";
    ResetTabTimer tabID ].

(** What the handler asks the chat surface to open a task tab with. *)
Definition task_tab_data (props : Props) : StoreData :=
  getTabData props "wb" true "Q - Dev" "/dev".

(** The order the specification's property puts the effects of the
    prompt branch in: the chat items first, then the loading and busy
    state.  [items_before_state calls] holds when no chat item is
    appended after a call that sets the loading flags or the status. *)
Definition is_state_call (ev : Event) : bool :=
  match ev with
  | UpdateStore _ (LoadingFlags _ _) _ | UpdateTabStatus _ _ => true
  | _ => false
  end.

Fixpoint items_before_state (calls : list Event) : bool :=
  match calls with
  | [] => true
  | ev :: rest =>
      (if is_state_call ev then forallb (fun e => negb (is_AddChatItem e)) rest else true)
      && items_before_state rest
  end.

(** *** A sample setting *)

(** A chat surface with room for one more tab, which it names [tab-2],
    and one without room. *)
Definition sample_props : Props :=
  {| mynahUI_updateStore :=
       fun tabID _ => if String.eqb tabID EmptyString then Some "tab-2" else None;
     isWeaverbirdEnabled := true;
     isGumbyEnabled := true;
     noMoreTabsTooltip := "You can only open ten conversation tabs at a time." |}.

Definition full_props : Props :=
  {| mynahUI_updateStore := fun _ _ => None;
     isWeaverbirdEnabled := true;
     isGumbyEnabled := true;
     noMoreTabsTooltip := "You can only open ten conversation tabs at a time." |}.

Definition sample_follow_up : ChatItemFollowUp :=
  {| fu_type := None; prompt := Some "Explain this code"; pillText := "Explain" |}.

Definition sample_auth_follow_up : ChatItemFollowUp :=
  {| fu_type := Some "re-auth"; prompt := Some "Explain this code"; pillText := "Sign in again" |}.

Definition sample_origin : Tab :=
  {| id := "tab-1"; status := "free"; type := "unknown";
     isSelected := true; openInteractionType := "click" |}.

(** *** The tab registry *)

(** Modelled from the spec: the tab registry (class [TabsStorage] of
    [storages/tabsStorage]) is not among the sources.  The spec gives
    it as the owner of the tab records, each found by its unique
    identifier and carrying a mutable status and a type tag; the
    handler registers a tab with it, sets a status, and retags a tab
    from type unknown to a given type. *)
Module TabsStorage.

Definition addTab (tab : Tab) (tabs : gmap string Tab) : gmap string Tab :=
  <[id tab := tab]> tabs.

Definition with_type (tabType : string) (tab : Tab) : Tab :=
  {| id := id tab; status := status tab; type := tabType;
     isSelected := isSelected tab; openInteractionType := openInteractionType tab |}.

Definition with_status (st : string) (tab : Tab) : Tab :=
  {| id := id tab; status := st; type := type tab;
     isSelected := isSelected tab; openInteractionType := openInteractionType tab |}.

Definition updateTabTypeFromUnknown (tabID tabType : string) (tabs : gmap string Tab)
  : gmap string Tab :=
  match tabs !! tabID with
  | Some tab =>
      if String.eqb (type tab) "unknown" then <[tabID := with_type tabType tab]> tabs
      else tabs
  | None => tabs
  end.

Definition updateTabStatus (tabID st : string) (tabs : gmap string Tab) : gmap string Tab :=
  match tabs !! tabID with
  | Some tab => <[tabID := with_status st tab]> tabs
  | None => tabs
  end.

(** A call that goes to the registry. *)
Definition is_registry_call (ev : Event) : bool :=
  match ev with
  | AddTab _ | UpdateTabTypeFromUnknown _ _ | UpdateTabStatus _ _ | ResetTabTimer _ => true
  | _ => false
  end.

(** The effect of one recorded call on the tab records (the idle
    timers are not part of them). *)
Definition apply (tabs : gmap string Tab) (ev : Event) : gmap string Tab :=
  match ev with
  | AddTab tab => addTab tab tabs
  | UpdateTabTypeFromUnknown tabID tabType => updateTabTypeFromUnknown tabID tabType tabs
  | UpdateTabStatus tabID st => updateTabStatus tabID st tabs
  | _ => tabs
  end.

Definition replay (calls : list Event) (tabs : gmap string Tab) : gmap string Tab :=
  fold_left apply calls tabs.

End TabsStorage.

Definition sample_tabs : gmap string Tab := {[ "tab-1" := sample_origin ]}.

End FollowUps.

(** ** The wizard panel singleton *)

Module Panel.

(** Panel instances are named by their serial number (the n-th
    evaluation of [new Panel] gives instance n), and so are the
    registrations of dispose listeners.  The webview of an instance is
    named like the instance. *)
Inductive Event : Type :=
| NewPanel (p : nat)
| Show (p : nat) (answer : Res unit)
| OnDidDispose (p registration : nat)
| DisposeSubscription (registration : nat).

(** The two module variables of the source, and what the host keeps:
    which webviews are open and which dispose listeners are
    registered on which webview. *)
Record State : Type := mk {
  activePanel : option nat;
  subscriptions : option (list nat);
  created : nat;
  webviews : list nat;
  listeners : list (nat * nat);
  registered : nat;
  calls : list Event
}.

Definition init : State :=
  {| activePanel := None; subscriptions := None; created := 0;
     webviews := []; listeners := []; registered := 0; calls := [] |}.

Definition log (ev : Event) (st : State) : State :=
  mk (activePanel st) (subscriptions st) (created st) (webviews st)
     (listeners st) (registered st) (calls st ++ [ev]).

(** [activePanel ??= new Panel(ctx, client)], giving the instance. *)
Definition activePanel_or_new (st : State) : nat * State :=
  match activePanel st with
  | Some p => (p, st)
  | None =>
      let p := created st in
      (p, log (NewPanel p)
            (mk (Some p) (subscriptions st) (S p) (webviews st)
                (listeners st) (registered st) (calls st)))
  end.

(** [await activePanel.show(...)]: the host opens the webview of the
    instance, or reveals it when it is open, unless the call fails. *)
Definition show (p : nat) (answer : Res unit) (st : State) : State :=
  let st' := log (Show p answer) st in
  match answer with
  | Ok _ =>
      mk (activePanel st') (subscriptions st') (created st')
         (if bool_decide (p ∈ webviews st') then webviews st' else webviews st' ++ [p])
         (listeners st') (registered st') (calls st')
  | Throw _ => st'
  end.

(** [webview.onDidDispose(callback)], giving the disposable. *)
Definition onDidDispose (p : nat) (st : State) : nat * State :=
  let r := registered st in
  (r, log (OnDidDispose p r)
        (mk (activePanel st) (subscriptions st) (created st) (webviews st)
            (listeners st ++ [(p, r)]) (S r) (calls st))).

Definition showCreateWorkspace (show_answer : Res unit) (st : State) : Res unit * State :=
  let '(p, st1) := activePanel_or_new st in
  let st2 := show p show_answer st1 in
  match show_answer with
  | Throw e => (Throw e, st2)
  | Ok _ =>
      match subscriptions st2 with
      | Some _ => (Ok tt, st2)
      | None =>
          let '(r, st3) := onDidDispose p st2 in
          (Ok tt,
           mk (activePanel st3) (Some [r]) (created st3) (webviews st3)
              (listeners st3) (registered st3) (calls st3))
      end
  end.

(** The listener the source registers: dispose the subscriptions,
    then clear both module variables. *)
Definition dispose_callback (st : State) : State :=
  let subs := default [] (subscriptions st) in
  mk None None (created st) (webviews st)
     (List.filter (fun l => bool_decide (snd l ∉ subs)) (listeners st))
     (registered st)
     (calls st ++ map DisposeSubscription subs).

(** The host disposes the webview of instance [p] (the user closes
    the panel): the webview is gone, and every listener registered on
    it at that time is called. *)
Definition disposeWebview (p : nat) (st : State) : State :=
  if bool_decide (p ∈ webviews st) then
    let fired := List.filter (fun l => bool_decide (fst l = p)) (listeners st) in
    fold_left (fun s _ => dispose_callback s) fired
      (mk (activePanel st) (subscriptions st) (created st)
          (List.filter (fun q => bool_decide (q ≠ p)) (webviews st))
          (listeners st) (registered st) (calls st))
  else st.

Inductive Step : Type :=
| Request (show_answer : Res unit)
| Dispose (p : nat).

Definition step (st : State) (s : Step) : State :=
  match s with
  | Request a => snd (showCreateWorkspace a st)
  | Dispose p => disposeWebview p st
  end.

Definition run (steps : list Step) : State := fold_left step steps init.

(** The panel instances that exist: the one the module variable
    refers to, and those with an open webview. *)
Definition instances (st : State) : list nat :=
  match activePanel st with
  | Some p => p :: List.filter (fun q => bool_decide (q ≠ p)) (webviews st)
  | None => webviews st
  end.

(** The calls of [st'] that [st] does not have yet. *)
Definition new_calls (st st' : State) : list Event :=
  List.skipn (length (calls st)) (calls st').

(** The calls that create or show a panel instance. *)
Definition is_panel_call (ev : Event) : bool :=
  match ev with NewPanel _ | Show _ _ => true | _ => false end.

(** The three shapes a reachable state has: no instance; an instance
    whose webview never opened; an instance with its webview open and
    the one dispose listener on it. *)
Definition idle (cr rg : nat) (cs : list Event) : State :=
  mk None None cr [] [] rg cs.

Definition pending (p cr rg : nat) (cs : list Event) : State :=
  mk (Some p) None cr [] [] rg cs.

Definition opened (p r cr rg : nat) (cs : list Event) : State :=
  mk (Some p) (Some [r]) cr [p] [(p, r)] rg cs.

Inductive Shape : State -> Prop :=
| Idle (cr rg : nat) (cs : list Event) : Shape (idle cr rg cs)
| Pending (p cr rg : nat) (cs : list Event) : p < cr -> Shape (pending p cr rg cs)
| Open (p r cr rg : nat) (cs : list Event) :
    p < cr -> r < rg -> Shape (opened p r cr rg cs).

End Panel.

(** ** Further observations on the handler's calls *)

Module FollowUpsCalls.

Import FollowUps.

(** The tab a call is about; a notification is about none. *)
Definition tab_of (ev : Event) : option string :=
  match ev with
  | UpdateStore tabID _ _ => Some tabID
  | AddChatItem tabID _ => Some tabID
  | Notify _ _ => None
  | OnAuthFollowUpClicked tabID _ => Some tabID
  | OnFollowUpClicked tabID _ _ => Some tabID
  | OnUpdateTabType tabID => Some tabID
  | OnKnownTabOpen tabID => Some tabID
  | UpdateTabStatus tabID _ => Some tabID
  | ResetTabTimer tabID => Some tabID
  | AddTab tab => Some (id tab)
  | UpdateTabTypeFromUnknown tabID _ => Some tabID
  end.

(** A call on the connector (the conversation backend). *)
Definition is_connector_call (ev : Event) : bool :=
  match ev with
  | OnAuthFollowUpClicked _ _ | OnFollowUpClicked _ _ _
  | OnUpdateTabType _ | OnKnownTabOpen _ => true
  | _ => false
  end.

(** A call that asks for, registers or announces a new tab. *)
Definition concerns_new_tab (ev : Event) : bool :=
  match ev with
  | UpdateStore _ (GeneratedTabData _ _ _ _ _ _) _ | AddTab _ | OnKnownTabOpen _ => true
  | _ => false
  end.

(** The one connector call a click ends with. *)
Definition connector_call_of (tabID messageId : string) (followUp : ChatItemFollowUp) : Event :=
  match auth_type followUp with
  | Some t => OnAuthFollowUpClicked tabID t
  | None => OnFollowUpClicked tabID messageId followUp
  end.

(** The prompt branch runs: no authentication kind, and a prompt. *)
Definition runs_prompt_branch (followUp : ChatItemFollowUp) : bool :=
  match auth_type followUp, prompt followUp with
  | None, Some _ => true
  | _, _ => false
  end.

(** The reply of the [continue-to-chat] branch. *)
Definition continue_reply : ChatItem :=
  {| ci_type := ANSWER; body := "Ok, please write your question below." |}.

(** A registry in which [tab-1] already has the chat type. *)
Definition typed_origin : Tab :=
  {| id := "tab-1"; status := "free"; type := "cwc";
     isSelected := true; openInteractionType := "click" |}.

Definition typed_tabs : gmap string Tab := {[ "tab-1" := typed_origin ]}.

End FollowUpsCalls.

(** ** Further observations on the calls of a submission *)

Module SubmissionCalls.

Import CreateWorkspace.

(** The collaborators of a submission, one per kind of call. *)
Inductive Collaborator : Type :=
| ProjectPrompt
| OrgPrompt
| ProjectLookup
| ProjectCreation
| Provisioning
| Cloning
| Opening.

Definition collaborator (ev : Event) : Collaborator :=
  match ev with
  | SelectProject _ => ProjectPrompt
  | SelectOrg _ => OrgPrompt
  | GetProject _ _ _ => ProjectLookup
  | CreateProject _ _ => ProjectCreation
  | CreateDevelopmentWorkspace _ _ => Provisioning
  | CloneToWorkspace _ _ _ => Cloning
  | OpenDevelopmentWorkspace _ _ => Opening
  end.

(** The calls a submission of each variant can make, in the order the
    source makes them. *)
Definition pipeline (source : SourceResponse) : list Collaborator :=
  match source with
  | EmptyResponse => [ProjectPrompt; Provisioning; Opening]
  | LinkedResponse _ _ => [Provisioning; Opening]
  | CloneResponse _ =>
      [OrgPrompt; ProjectLookup; ProjectCreation; Provisioning; Cloning; Opening]
  end.

Definition error_of {A} (answer : Res A) : option Exn :=
  match answer with
  | Ok _ => None
  | Throw e => Some e
  end.

(** The error a call was answered with, if it was. *)
Definition failure (ev : Event) : option Exn :=
  match ev with
  | SelectProject answer => error_of answer
  | SelectOrg answer => error_of answer
  | GetProject _ _ answer => error_of answer
  | CreateProject _ answer => error_of answer
  | CreateDevelopmentWorkspace _ answer => error_of answer
  | CloneToWorkspace _ _ answer => error_of answer
  | OpenDevelopmentWorkspace _ answer => error_of answer
  end.

(** A project lookup answered with status 404, the one failure the
    wizard catches. *)
Definition is_not_found (ev : Event) : bool :=
  match ev with
  | GetProject _ _ (Throw e) =>
      if decide (statusCode_of e = Some 404%Z) then true else false
  | _ => false
  end.

(** A provisioning call carries the settings [s]. *)
Definition carries_settings (s : WorkspaceSettings) (ev : Event) : Prop :=
  match ev with
  | CreateDevelopmentWorkspace request _ => settings request = s
  | _ => True
  end.

(** The project resolution of the clone variant has given [project] in
    [pre]: the lookup found it, or the creation returned it. *)
Definition resolved (pre : list Event) (project : CawsProject) : Prop :=
  (exists name org, In (GetProject name org (Ok project)) pre)
  \/ (exists request, In (CreateProject request (Ok project)) pre).

(** A service whose provisioning fails. *)
Definition failing_env : Env :=
  {| decodeURIComponent := decodeURIComponent sample_env;
     localize := localize sample_env;
     selectCawsResource_project := selectCawsResource_project sample_env;
     selectCawsResource_org := selectCawsResource_org sample_env;
     client_getProject := client_getProject sample_env;
     client_createProject := client_createProject sample_env;
     client_createDevelopmentWorkspace :=
       fun _ => Throw (JsError (Some 500%Z) "Internal Server Error");
     model_cloneToWorkspace := model_cloneToWorkspace sample_env;
     model_openDevelopmentWorkspace := model_openDevelopmentWorkspace sample_env |}.

End SubmissionCalls.

(** ** Editing one setting

    [CawsCreateWebview.editSetting].  The four prompters and
    [isValidResponse] are imported from files that are not among the
    sources: a prompter is taken by what it answers when seeded with the
    current value of its field (a value, something that is no valid
    response, or a rejection), and [isValidResponse] by holding of the
    values only. *)

Module EditSetting.

Import CreateWorkspace.

Local Open Scope js_scope.

(** [keyof WorkspaceSettings] *)
Inductive Key : Type :=
| K_alias
| K_instanceType
| K_inactivityTimeoutMinutes
| K_persistentStorage.

(** What [prompter.prompt()] resolves to. *)
Inductive PromptResult (A : Type) : Type :=
| Response (value : A)
| NotValid.
Arguments Response {A} value.
Arguments NotValid {A}.

Inductive Event : Type :=
| PromptAlias (recentItem : option string) (answer : Res (PromptResult string))
| PromptInstance (recentItem : string) (answer : Res (PromptResult string))
| PromptTimeout (recentItem : Z) (answer : Res (PromptResult Z))
| PromptStorage (recentItem : Z) (answer : Res (PromptResult Z)).

(** The four prompters, by their answers. *)
Record Prompters : Type := {
  aliasPrompter : option string -> Res (PromptResult string);
  instancePrompter : string -> Res (PromptResult string);
  timeoutPrompter : Z -> Res (PromptResult Z);
  storagePrompter : Z -> Res (PromptResult Z)
}.

Section Edit.

Variable prompters : Prompters.

(** The inner function [prompt], once per kind of field:
    [prompter.recentItem = settings[key]], the awaited answer, and the
    copy of the settings with the field replaced when the answer is a
    valid response. *)
Definition editSetting (settings : WorkspaceSettings) (key : Key) : M Event WorkspaceSettings :=
  match key with
  | K_alias =>
      let! response := call (PromptAlias (alias settings))
                         (aliasPrompter prompters (alias settings)) in
      match response with
      | Response value =>
          ret {| alias := Some value;
                 instanceType := instanceType settings;
                 inactivityTimeoutMinutes := inactivityTimeoutMinutes settings;
                 persistentStorage := persistentStorage settings |}
      | NotValid => ret settings
      end
  | K_instanceType =>
      let! response := call (PromptInstance (instanceType settings))
                         (instancePrompter prompters (instanceType settings)) in
      match response with
      | Response value =>
          ret {| alias := alias settings;
                 instanceType := value;
                 inactivityTimeoutMinutes := inactivityTimeoutMinutes settings;
                 persistentStorage := persistentStorage settings |}
      | NotValid => ret settings
      end
  | K_inactivityTimeoutMinutes =>
      let! response := call (PromptTimeout (inactivityTimeoutMinutes settings))
                         (timeoutPrompter prompters (inactivityTimeoutMinutes settings)) in
      match response with
      | Response value =>
          ret {| alias := alias settings;
                 instanceType := instanceType settings;
                 inactivityTimeoutMinutes := value;
                 persistentStorage := persistentStorage settings |}
      | NotValid => ret settings
      end
  | K_persistentStorage =>
      let! response := call (PromptStorage (persistentStorage settings))
                         (storagePrompter prompters (persistentStorage settings)) in
      match response with
      | Response value =>
          ret {| alias := alias settings;
                 instanceType := instanceType settings;
                 inactivityTimeoutMinutes := inactivityTimeoutMinutes settings;
                 persistentStorage := value |}
      | NotValid => ret settings
      end
  end.

End Edit.

(** The fields of the settings other than [key] agree. *)
Definition agree_off (key : Key) (s s' : WorkspaceSettings) : Prop :=
  (key = K_alias \/ alias s' = alias s)
  /\ (key = K_instanceType \/ instanceType s' = instanceType s)
  /\ (key = K_inactivityTimeoutMinutes
      \/ inactivityTimeoutMinutes s' = inactivityTimeoutMinutes s)
  /\ (key = K_persistentStorage \/ persistentStorage s' = persistentStorage s).

(** The field a prompt is shown for. *)
Definition prompted_key (ev : Event) : Key :=
  match ev with
  | PromptAlias _ _ => K_alias
  | PromptInstance _ _ => K_instanceType
  | PromptTimeout _ _ => K_inactivityTimeoutMinutes
  | PromptStorage _ _ => K_persistentStorage
  end.

(** The prompt was not answered with a valid response. *)
Definition declined (ev : Event) : bool :=
  match ev with
  | PromptAlias _ (Ok (Response _)) | PromptInstance _ (Ok (Response _))
  | PromptTimeout _ (Ok (Response _)) | PromptStorage _ (Ok (Response _)) => false
  | _ => true
  end.

(** The error a prompt was rejected with, if it was. *)
Definition failure_of (ev : Event) : option Exn :=
  match ev with
  | PromptAlias _ (Throw e) | PromptInstance _ (Throw e)
  | PromptTimeout _ (Throw e) | PromptStorage _ (Throw e) => Some e
  | _ => None
  end.

(** The prompt was seeded with the value the field has in [s]. *)
Definition seeded_with (s : WorkspaceSettings) (ev : Event) : Prop :=
  match ev with
  | PromptAlias recentItem _ => recentItem = alias s
  | PromptInstance recentItem _ => recentItem = instanceType s
  | PromptTimeout recentItem _ => recentItem = inactivityTimeoutMinutes s
  | PromptStorage recentItem _ => recentItem = persistentStorage s
  end.

(** If the prompt was answered with a valid response, the field of
    [s'] holds that response. *)
Definition answered_in (s' : WorkspaceSettings) (ev : Event) : Prop :=
  match ev with
  | PromptAlias _ (Ok (Response value)) => alias s' = Some value
  | PromptInstance _ (Ok (Response value)) => instanceType s' = value
  | PromptTimeout _ (Ok (Response value)) => inactivityTimeoutMinutes s' = value
  | PromptStorage _ (Ok (Response value)) => persistentStorage s' = value
  | _ => True
  end.

(** A user who answers every prompt: a new alias, a larger instance,
    a doubled timeout, and no answer for the storage. *)
Definition sample_prompters : Prompters :=
  {| aliasPrompter := fun _ => Ok (Response "review");
     instancePrompter := fun _ => Ok (Response "dev.standard1.large");
     timeoutPrompter := fun recent => Ok (Response (2 * recent)%Z);
     storagePrompter := fun _ => Ok NotValid |}.

End EditSetting.

(** * Properties *)

(** ** Strings *)

Module JSFacts.

Import JS.

Lemma append_nil (s : string) : EmptyString +:+ s = s.
Proof. reflexivity. Qed.

Lemma append_cons (x : ascii) (a b : string) : String x a +:+ b = String x (a +:+ b).
Proof. reflexivity. Qed.

(** Unfold the appends whose left operand starts with a constructor. *)
Ltac app_simpl := rewrite ?append_cons, ?append_nil in *; simpl in *.

Lemma length_append (a b : string) :
  String.length (a +:+ b) = String.length a + String.length b.
Proof. induction a as [|x a IH]; app_simpl; [reflexivity | now rewrite IH]. Qed.

Lemma starts_with_append (p s : string) : starts_with p (p +:+ s) = true.
Proof.
  induction p as [|x p IH]; app_simpl; [reflexivity |].
  now rewrite Ascii.eqb_refl, IH.
Qed.

Lemma drop_append (p s : string) : drop (String.length p) (p +:+ s) = s.
Proof. induction p as [|x p IH]; app_simpl; [reflexivity | exact IH]. Qed.

(** Replacing a pattern the string starts with removes that prefix. *)
Lemma replace_prefix (pat s : string) : replace pat EmptyString (pat +:+ s) = s.
Proof.
  destruct (pat +:+ s) eqn:E; simpl.
  - destruct pat; app_simpl; [now subst | discriminate].
  - rewrite <- E, starts_with_append, drop_append. reflexivity.
Qed.

Lemma split_slash_free (s : string) : slash_free s -> split "/" s = [s].
Proof.
  induction s as [|c s IH]; intros H; simpl; [reflexivity |].
  destruct (Ascii.eqb c "/") eqn:E.
  - apply Ascii.eqb_eq in E. subst c. exfalso. apply H. now left.
  - rewrite IH; [reflexivity |]. intros Hin. apply H. now right.
Qed.

Lemma split_nonempty (s : string) : split "/" s <> [].
Proof.
  induction s as [|c s IH]; simpl; [discriminate |].
  destruct (Ascii.eqb c "/"); [discriminate |].
  destruct (split "/" s); [contradiction | discriminate].
Qed.

Lemma pop_cons (x : string) (l : list string) : l <> [] -> pop (x :: l) = pop l.
Proof. unfold pop. destruct l; [contradiction | reflexivity]. Qed.

(** The last element of the split is what follows the last slash. *)
Lemma pop_split (dir seg : string) :
  slash_free seg -> pop (split "/" (dir +:+ String "/" seg)) = Some seg.
Proof.
  intros H. induction dir as [|c dir IH]; rewrite ?append_cons, ?append_nil; simpl.
  - rewrite (split_slash_free seg H). reflexivity.
  - destruct (Ascii.eqb c "/").
    + rewrite pop_cons; [exact IH | apply split_nonempty].
    + destruct (split "/" (dir +:+ String "/" seg)) as [|h t] eqn:E.
      * exfalso. now apply (split_nonempty _ E).
      * destruct t as [|h' t]; [| rewrite pop_cons in IH by discriminate;
                                  rewrite pop_cons by discriminate; exact IH].
        (* one segment only: impossible, the string holds a slash *)
        exfalso. clear IH.
        assert (Hlen : forall d, 2 <= length (split "/" (d +:+ String "/" seg))).
        { clear. induction d as [|x d IHd]; rewrite ?append_cons, ?append_nil; simpl.
          - destruct (split "/" seg) eqn:E'; simpl; [now apply split_nonempty in E' | lia].
          - destruct (Ascii.eqb x "/"); simpl.
            + pose proof (split_nonempty (d +:+ String "/" seg)).
              destruct (split "/" (d +:+ String "/" seg)); simpl in *; [contradiction | lia].
            + destruct (split "/" (d +:+ String "/" seg)); simpl in *; lia. }
        specialize (Hlen dir). rewrite E in Hlen. simpl in Hlen. lia.
Qed.

Lemma eqb_dot_git_append (c : ascii) (stem : string) :
  String.eqb (String c stem +:+ ".git") ".git" = false.
Proof.
  apply String.eqb_neq. intros E.
  apply (f_equal String.length) in E. rewrite length_append in E. simpl in E. lia.
Qed.

(** A name that ends in [.git] loses that suffix. *)
Lemma replace_dot_git_suffix (stem : string) :
  replace_dot_git_at_end (stem +:+ ".git") = stem.
Proof.
  induction stem as [|c stem IH]; [reflexivity |].
  change (replace_dot_git_at_end (String c stem +:+ ".git"))
    with (if String.eqb (String c stem +:+ ".git") ".git" then EmptyString
          else String c (replace_dot_git_at_end (stem +:+ ".git"))).
  now rewrite eqb_dot_git_append, IH.
Qed.

(** Any other name is kept. *)
Lemma replace_dot_git_other (s : string) :
  (forall stem, s <> stem +:+ ".git") -> replace_dot_git_at_end s = s.
Proof.
  induction s as [|c s IH]; intros H; [reflexivity |].
  change (replace_dot_git_at_end (String c s))
    with (if String.eqb (String c s) ".git" then EmptyString
          else String c (replace_dot_git_at_end s)).
  destruct (String.eqb (String c s) ".git") eqn:E.
  - apply String.eqb_eq in E. exfalso. now apply (H EmptyString).
  - rewrite IH; [reflexivity |]. intros stem ->. now apply (H (String c stem)).
Qed.

Lemma is_word_at : is_word "@" = false.
Proof. reflexivity. Qed.

(** The pattern of a URL without scheme: a non-empty run of word
    characters from the start, then an at sign. *)
Lemma word_run_then_at_spec (s : string) :
  word_run_then_at s = true <->
  exists user rest, user <> EmptyString /\ all_word user /\ s = user +:+ String "@" rest.
Proof.
  split.
  - induction s as [|c s IH]; simpl; [discriminate |].
    intros H. apply andb_prop in H as [Hc H].
    destruct s as [|d s'].
    + discriminate.
    + destruct (Ascii.eqb d "@") eqn:Ed.
      * apply Ascii.eqb_eq in Ed. subst d.
        exists (String c EmptyString), s'. unfold all_word. simpl.
        rewrite Hc. repeat split; congruence.
      * assert (Hrec : word_run_then_at (String d s') = true).
        { destruct d as [[] [] [] [] [] [] [] []]; try exact H; discriminate. }
        destruct (IH Hrec) as (user & rest & Hne & Hw & ->).
        exists (String c user), rest. unfold all_word in *. simpl.
        rewrite Hc, Hw. repeat split; congruence.
  - intros (user & rest & Hne & Hw & ->).
    induction user as [|c user IH]; [contradiction |].
    unfold all_word in Hw. simpl in Hw. apply andb_prop in Hw as [Hc Hw].
    simpl. rewrite Hc. simpl.
    destruct user as [|d user']; [reflexivity |].
    assert (Hd : d <> "@"%char).
    { simpl in Hw. apply andb_prop in Hw as [Hd _]. intros ->. now rewrite is_word_at in Hd. }
    assert (Hrec : word_run_then_at (String d user' +:+ String "@" rest) = true)
      by (apply IH; [discriminate | exact Hw]).
    simpl in *.
    destruct d as [[] [] [] [] [] [] [] []]; try exact Hrec; now contradiction Hd.
Qed.

End JSFacts.

(** ** The call-trace monad *)

(** Case analysis on every answer the environment gives along a run. *)
Ltac answers :=
  unfold call, ret, throw, emit, outcome, trace in *;
  repeat (simplify_eq/=;
          match goal with
          | |- context [match ?x with _ => _ end] => destruct x eqn:?
          | H : context [match ?x with _ => _ end] |- _ => destruct x eqn:?
          end);
  simplify_eq/=.

(** Every way to cut a known trace around one of its calls. *)
Ltac cuts :=
  repeat match goal with
         | H : _ = ?pre ++ _ :: _ |- _ =>
             destruct pre; simplify_eq/=
         end.

(** ** The wizard *)

Module CreateWorkspaceFacts.

Import JS JSFacts CreateWorkspace.

Lemma list_ascii_append (a b : string) :
  list_ascii_of_string (a +:+ b) = list_ascii_of_string a ++ list_ascii_of_string b.
Proof. induction a as [|x a IH]; rewrite ?append_cons, ?append_nil; simpl; congruence. Qed.

Lemma slash_free_dot_git (stem : string) : slash_free stem -> slash_free (stem +:+ ".git").
Proof.
  unfold slash_free. rewrite list_ascii_append. intros H Hin.
  apply in_app_or in Hin as [Hin | Hin]; [now apply H |].
  simpl in Hin. intuition discriminate.
Qed.

Lemma repoName_of_path_dot_git (dir stem : string) :
  slash_free stem ->
  repoName_of_path (dir +:+ "/" +:+ stem +:+ ".git") = Some stem.
Proof.
  intros H. unfold repoName_of_path.
  change (dir +:+ "/" +:+ stem +:+ ".git") with (dir +:+ String "/" (stem +:+ ".git")).
  rewrite pop_split by now apply slash_free_dot_git.
  simpl. now rewrite replace_dot_git_suffix.
Qed.

Lemma repoName_of_path_plain (dir seg : string) :
  slash_free seg -> (forall stem, seg <> stem +:+ ".git") ->
  repoName_of_path (dir +:+ "/" +:+ seg) = Some seg.
Proof.
  intros H Hne. unfold repoName_of_path.
  change (dir +:+ "/" +:+ seg) with (dir +:+ String "/" seg).
  rewrite pop_split by assumption.
  simpl. now rewrite replace_dot_git_other.
Qed.

Lemma withScheme_schemeless (user rest : string) :
  user <> EmptyString -> all_word user ->
  withScheme (user +:+ "@" +:+ rest) = "ssh://" +:+ user +:+ "@" +:+ rest.
Proof.
  intros Hne Hw. unfold withScheme, isSchemeless.
  replace (word_run_then_at (user +:+ "@" +:+ rest)) with true; [reflexivity |].
  symmetry. apply word_run_then_at_spec. now exists user, rest.
Qed.

(** A submission whose URL gives no repository name makes no call. *)
Lemma submit_without_name (env : Env) (settings : WorkspaceSettings)
    (url : string) (uri : Uri.t) (name : option string) :
  parseRepository env url = Ok (uri, name) ->
  falsy name = true ->
  submit env settings (CloneResponse url) =
    (Throw (TypeError "No repository name found"), []).
Proof.
  intros Hp Hf. unfold submit, cloneRepository. rewrite Hp.
  destruct name as [[|c s]|]; simpl in *; congruence.
Qed.

(** The name and the location of a clone submission are those of the
    host's parse of the prefixed URL: the location is the parsed URI,
    the name is cut from its path component. *)
Lemma parseRepository_spec (env : Env) (url : string) (uri : Uri.t) (name : option string) :
  parseRepository env url = Ok (uri, name) <->
  Uri.parse (decodeURIComponent env) (withScheme url) true = Ok uri
  /\ name = repoName_of_path (Uri.path uri).
Proof.
  unfold parseRepository.
  destruct (Uri.parse (decodeURIComponent env) (withScheme url) true) as [u|e]; split.
  - intros [= <- <-]. now split.
  - intros [[= <-] ->]. reflexivity.
  - discriminate.
  - intros [? _]. discriminate.
Qed.

(** A URL the host refuses fails the submission with the host's error,
    and no collaborator is called. *)
Lemma submit_unparseable (env : Env) (settings : WorkspaceSettings) (url : string) (e : Exn) :
  Uri.parse (decodeURIComponent env) (withScheme url) true = Throw e ->
  submit env settings (CloneResponse url) = (Throw e, []).
Proof. intros H. unfold submit, cloneRepository, parseRepository. now rewrite H. Qed.

(** With a non-empty name, the submission asks for the organization
    first, then looks the project up under the name cut from the parsed
    path; a project is created under no other name, and the repository
    reference of a clone call is that name at the parsed URI. *)
Lemma clone_calls_under_derived_name (env : Env) (settings : WorkspaceSettings)
    (url : string) (uri : Uri.t) (c : ascii) (s : string) :
  Uri.parse (decodeURIComponent env) (withScheme url) true = Ok uri ->
  repoName_of_path (Uri.path uri) = Some (String c s) ->
  exists rest,
    trace (submit env settings (CloneResponse url)) =
      SelectOrg (selectCawsResource_org env) :: rest
    /\ (forall org, selectCawsResource_org env = Ok (Some org) ->
          exists rest',
            rest = GetProject (String c s) (org_name org)
                     (client_getProject env (String c s) (org_name org)) :: rest')
    /\ (forall request answer, In (CreateProject request answer) rest ->
          name request = String c s /\ displayName request = String c s)
    /\ (forall workspace repo answer, In (CloneToWorkspace workspace repo answer) rest ->
          repo = {| rr_name := String c s; location := uri |}).
Proof.
  intros Hu Hn.
  assert (Hp : parseRepository env url = Ok (uri, Some (String c s)))
    by (apply parseRepository_spec; now split).
  unfold submit, cloneRepository. rewrite Hp. simpl.
  unfold selectOrg, getUnlinkedProject, getProject, createProject,
    createDevelopmentWorkspace, cloneToWorkspace, openDevelopmentWorkspace,
    bind, catch.
  answers;
    (eexists; split; [reflexivity |];
     split; [intros ? ?; simplify_eq; eexists;
             try match goal with
                 | H : client_getProject _ _ _ = _ |- _ => rewrite H
                 end;
             reflexivity |];
     split; intros; simpl in *; destruct_or?; simplify_eq/=; auto).
Qed.

(** The calls of a clone submission whose lookup finds the project and
    whose provisioning succeeds: the workspace is cloned into under the
    derived name, from the parsed URI. *)
Lemma clone_calls_found_project (env : Env) (settings : WorkspaceSettings)
    (url : string) (uri : Uri.t) (c : ascii) (s : string)
    (org : CawsOrg) (project : CawsProject) (workspace : DevelopmentWorkspaceId) :
  let request := {| ides := VSCode;
                    projectName := project_name project;
                    organizationName := org_name (project_org project);
                    repositories := None;
                    settings := settings |} in
  let repo := {| rr_name := String c s; location := uri |} in
  Uri.parse (decodeURIComponent env) (withScheme url) true = Ok uri ->
  repoName_of_path (Uri.path uri) = Some (String c s) ->
  selectCawsResource_org env = Ok (Some org) ->
  client_getProject env (String c s) (org_name org) = Ok project ->
  client_createDevelopmentWorkspace env request = Ok workspace ->
  exists rest,
    trace (submit env settings (CloneResponse url)) =
      SelectOrg (Ok (Some org))
      :: GetProject (String c s) (org_name org) (Ok project)
      :: CreateDevelopmentWorkspace request (Ok workspace)
      :: CloneToWorkspace workspace repo (model_cloneToWorkspace env workspace repo)
      :: rest.
Proof.
  intros request repo Hu Hn Ho Hg Hw.
  assert (Hp : parseRepository env url = Ok (uri, Some (String c s)))
    by (apply parseRepository_spec; now split).
  unfold submit, cloneRepository. rewrite Hp. simpl.
  unfold selectOrg, getUnlinkedProject, getProject, createProject,
    createDevelopmentWorkspace, cloneToWorkspace, openDevelopmentWorkspace,
    bind, catch, call, ret, trace.
  rewrite Ho. simpl. rewrite Hg. simpl. fold request. rewrite Hw. simpl. fold repo.
  destruct (model_cloneToWorkspace env workspace repo); simpl; eexists; reflexivity.
Qed.

(** C1: for the clone variant, a URL that starts with a run of word
    characters and an at sign is given the scheme [ssh://] before it
    is parsed; the repository name and location of the submission are
    those of the host's parse of the prefixed URL, the name being what
    follows the last slash of the parsed path, without a closing
    [.git].  A URL the host refuses, or one that gives no name or the
    empty name, fails the submission before any collaborator is called,
    the latter with the error "No repository name found".  With any
    other name the submission asks for the organization, looks the
    project up under that name, creates a project under no other name,
    and clones from the parsed URI under that name.  The three inputs
    of the specification give [repo], [weird-name] and the empty
    name. *)
Theorem clone_url_parsing (env : Env) (settings : WorkspaceSettings) :
  (forall url, isSchemeless url = true <->
     exists user rest, user <> EmptyString /\ all_word user /\ url = user +:+ "@" +:+ rest)
  /\ (forall user rest, user <> EmptyString -> all_word user ->
        withScheme (user +:+ "@" +:+ rest) = "ssh://" +:+ user +:+ "@" +:+ rest)
  /\ (forall url, isSchemeless url = false -> withScheme url = url)
  /\ (forall dir stem, slash_free stem ->
        repoName_of_path (dir +:+ "/" +:+ stem +:+ ".git") = Some stem)
  /\ (forall dir seg, slash_free seg -> (forall stem, seg <> stem +:+ ".git") ->
        repoName_of_path (dir +:+ "/" +:+ seg) = Some seg)
  /\ withScheme "git@host.example:org/repo.git" = "ssh://git@host.example:org/repo.git"
  /\ parseRepository env "git@host.example:org/repo.git" =
       Ok (Uri.mk "ssh" "git@host.example:org" "/repo.git" EmptyString EmptyString,
           Some "repo")
  /\ parseRepository env "https://host/org/weird-name" =
       Ok (Uri.mk "https" "host" "/org/weird-name" EmptyString EmptyString,
           Some "weird-name")
  /\ parseRepository env "https://host/" =
       Ok (Uri.mk "https" "host" "/" EmptyString EmptyString, Some EmptyString)
  /\ submit env settings (CloneResponse "https://host/") =
       (Throw (TypeError "No repository name found"), [])
  /\ (forall url uri name,
        parseRepository env url = Ok (uri, name) -> falsy name = true ->
        submit env settings (CloneResponse url) =
          (Throw (TypeError "No repository name found"), []))
  /\ (forall url uri name,
        parseRepository env url = Ok (uri, name) <->
        Uri.parse (decodeURIComponent env) (withScheme url) true = Ok uri
        /\ name = repoName_of_path (Uri.path uri))
  /\ parseRepository env "https://host/org/repo.git?ref=a/b.git#c/d.git" =
       Ok (Uri.mk "https" "host" "/org/repo.git" "ref=a/b.git" "c/d.git", Some "repo")
  /\ (forall url e,
        Uri.parse (decodeURIComponent env) (withScheme url) true = Throw e ->
        submit env settings (CloneResponse url) = (Throw e, []))
  /\ (forall url uri,
        Uri.parse (decodeURIComponent env) (withScheme url) true = Ok uri ->
        falsy (repoName_of_path (Uri.path uri)) = true ->
        submit env settings (CloneResponse url) =
          (Throw (TypeError "No repository name found"), []))
  /\ (forall url uri c s,
        Uri.parse (decodeURIComponent env) (withScheme url) true = Ok uri ->
        repoName_of_path (Uri.path uri) = Some (String c s) ->
        exists rest,
          trace (submit env settings (CloneResponse url)) =
            SelectOrg (selectCawsResource_org env) :: rest
          /\ (forall org, selectCawsResource_org env = Ok (Some org) ->
                exists rest',
                  rest = GetProject (String c s) (org_name org)
                           (client_getProject env (String c s) (org_name org)) :: rest')
          /\ (forall request answer, In (CreateProject request answer) rest ->
                name request = String c s /\ displayName request = String c s)
          /\ (forall workspace repo answer,
                In (CloneToWorkspace workspace repo answer) rest ->
                repo = {| rr_name := String c s; location := uri |}))
  /\ (forall url uri c s org project workspace,
        let request := {| ides := VSCode;
                          projectName := project_name project;
                          organizationName := org_name (project_org project);
                          repositories := None;
                          settings := settings |} in
        let repo := {| rr_name := String c s; location := uri |} in
        Uri.parse (decodeURIComponent env) (withScheme url) true = Ok uri ->
        repoName_of_path (Uri.path uri) = Some (String c s) ->
        selectCawsResource_org env = Ok (Some org) ->
        client_getProject env (String c s) (org_name org) = Ok project ->
        client_createDevelopmentWorkspace env request = Ok workspace ->
        exists rest,
          trace (submit env settings (CloneResponse url)) =
            SelectOrg (Ok (Some org))
            :: GetProject (String c s) (org_name org) (Ok project)
            :: CreateDevelopmentWorkspace request (Ok workspace)
            :: CloneToWorkspace workspace repo (model_cloneToWorkspace env workspace repo)
            :: rest)
  /\ (forall url uri dir c stem org,
        Uri.parse (decodeURIComponent env) (withScheme url) true = Ok uri ->
        Uri.path uri = dir +:+ "/" +:+ String c stem +:+ ".git" ->
        slash_free (String c stem) ->
        selectCawsResource_org env = Ok (Some org) ->
        exists rest,
          trace (submit env settings (CloneResponse url)) =
            SelectOrg (Ok (Some org))
            :: GetProject (String c stem) (org_name org)
                 (client_getProject env (String c stem) (org_name org))
            :: rest)
  /\ (forall org, selectCawsResource_org env = Ok (Some org) ->
        exists rest,
          trace (submit env settings (CloneResponse "git@host.example:org/repo.git")) =
            SelectOrg (Ok (Some org))
            :: GetProject "repo" (org_name org) (client_getProject env "repo" (org_name org))
            :: rest)
  /\ (forall org, selectCawsResource_org env = Ok (Some org) ->
        exists rest,
          trace (submit env settings (CloneResponse "https://host/org/weird-name")) =
            SelectOrg (Ok (Some org))
            :: GetProject "weird-name" (org_name org)
                 (client_getProject env "weird-name" (org_name org))
            :: rest).
Proof.
  assert (Hlookup : forall url uri c s org,
            Uri.parse (decodeURIComponent env) (withScheme url) true = Ok uri ->
            repoName_of_path (Uri.path uri) = Some (String c s) ->
            selectCawsResource_org env = Ok (Some org) ->
            exists rest,
              trace (submit env settings (CloneResponse url)) =
                SelectOrg (Ok (Some org))
                :: GetProject (String c s) (org_name org)
                     (client_getProject env (String c s) (org_name org))
                :: rest).
  { intros url uri c s org Hu Hn Ho.
    destruct (clone_calls_under_derived_name env settings url uri c s Hu Hn)
      as (rest & Ht & Hg & _).
    destruct (Hg org Ho) as [rest' ->]. exists rest'. now rewrite Ht, Ho. }
  split; [intros url; apply word_run_then_at_spec |].
  split; [intros user rest; apply withScheme_schemeless |].
  split; [intros url H; unfold withScheme; now rewrite H |].
  split; [intros; now apply repoName_of_path_dot_git |].
  split; [intros; now apply repoName_of_path_plain |].
  split; [reflexivity |].
  split; [reflexivity |].
  split; [reflexivity |].
  split; [reflexivity |].
  split; [reflexivity |].
  split; [intros url uri name; apply submit_without_name |].
  split; [intros url uri name; apply parseRepository_spec |].
  split; [reflexivity |].
  split; [intros url e; apply submit_unparseable |].
  split.
  { intros url uri Hu Hf.
    apply (submit_without_name env settings url uri (repoName_of_path (Uri.path uri)));
      [apply parseRepository_spec; now split | exact Hf]. }
  split; [intros url uri c s; apply clone_calls_under_derived_name |].
  split; [intros url uri c s org project workspace; apply clone_calls_found_project |].
  split.
  { intros url uri dir c stem org Hu Hpath Hs Ho.
    apply (Hlookup url uri c stem org Hu); [| exact Ho].
    rewrite Hpath. now apply repoName_of_path_dot_git. }
  split.
  - intros org Ho.
    now apply (Hlookup "git@host.example:org/repo.git"
                 (Uri.mk "ssh" "git@host.example:org" "/repo.git" EmptyString EmptyString)
                 "r"%char "epo" org).
  - intros org Ho.
    now apply (Hlookup "https://host/org/weird-name"
                 (Uri.mk "https" "host" "/org/weird-name" EmptyString EmptyString)
                 "w"%char "eird-name" org).
Qed.

(** *** Project resolution *)

Lemma getUnlinkedProject_found (env : Env) (org repoName : string) (p : CawsProject) :
  client_getProject env repoName org = Ok p ->
  getUnlinkedProject env org repoName = (Ok p, [GetProject repoName org (Ok p)]).
Proof. intros H. unfold getUnlinkedProject, getProject, call. rewrite H. reflexivity. Qed.

Lemma getUnlinkedProject_not_found (env : Env) (org repoName : string) (e : Exn) :
  client_getProject env repoName org = Throw e ->
  statusCode_of e = Some 404%Z ->
  getUnlinkedProject env org repoName =
    (client_createProject env (new_project_request env org repoName),
     [GetProject repoName org (Throw e);
      CreateProject (new_project_request env org repoName)
        (client_createProject env (new_project_request env org repoName))]).
Proof.
  intros H Hc. unfold getUnlinkedProject, getProject, call. rewrite H. simpl.
  destruct (decide (statusCode_of e = Some 404%Z)); [reflexivity | contradiction].
Qed.

Lemma getUnlinkedProject_failed (env : Env) (org repoName : string) (e : Exn) :
  client_getProject env repoName org = Throw e ->
  statusCode_of e <> Some 404%Z ->
  getUnlinkedProject env org repoName = (Throw e, [GetProject repoName org (Throw e)]).
Proof.
  intros H Hc. unfold getUnlinkedProject, getProject, call. rewrite H. simpl.
  destruct (decide (statusCode_of e = Some 404%Z)); [contradiction | reflexivity].
Qed.

(** In a clone submission, a project is only ever created under the
    name derived from the URL, as name and as display name. *)
Lemma clone_creates_derived_name (env : Env) (settings : WorkspaceSettings) (url : string)
    (request : CreateProjectRequest) (answer : Res CawsProject) :
  In (CreateProject request answer) (trace (submit env settings (CloneResponse url))) ->
  exists uri, parseRepository env url = Ok (uri, Some (name request))
              /\ displayName request = name request.
Proof.
  unfold submit, cloneRepository.
  destruct (parseRepository env url) as [[uri nm]|e] eqn:Hp; simpl; [| tauto].
  destruct nm as [[|c s]|]; simpl; try tauto.
  unfold selectOrg, getUnlinkedProject, getProject, createProject,
    createDevelopmentWorkspace, cloneToWorkspace, openDevelopmentWorkspace, call.
  intros Hin. unfold trace in Hin. answers; destruct_or?; simplify_eq/=; eauto.
Qed.

(** C2: in the project resolution of the clone variant, a lookup that
    fails with status 404 is no error: a project is created whose name
    and display name are the repository name, and its answer is the
    result; a lookup that finds a project returns it and never calls
    project creation; a lookup that fails otherwise fails the
    resolution with the same error, and creates nothing.  The name
    handed to the resolution is the one derived from the URL. *)
Theorem project_resolution (env : Env) (org repoName : string) :
  (forall e, client_getProject env repoName org = Throw e ->
     statusCode_of e = Some 404%Z ->
     exists request,
       name request = repoName /\ displayName request = repoName
       /\ cp_organizationName request = org
       /\ getUnlinkedProject env org repoName =
            (client_createProject env request,
             [GetProject repoName org (Throw e);
              CreateProject request (client_createProject env request)]))
  /\ (forall p, client_getProject env repoName org = Ok p ->
        outcome (getUnlinkedProject env org repoName) = Ok p
        /\ List.filter is_CreateProject (trace (getUnlinkedProject env org repoName)) = [])
  /\ (forall e, client_getProject env repoName org = Throw e ->
        statusCode_of e <> Some 404%Z ->
        outcome (getUnlinkedProject env org repoName) = Throw e
        /\ List.filter is_CreateProject (trace (getUnlinkedProject env org repoName)) = [])
  /\ (forall settings url request answer,
        In (CreateProject request answer)
           (trace (submit env settings (CloneResponse url))) ->
        exists uri, parseRepository env url = Ok (uri, Some (name request))
                    /\ displayName request = name request).
Proof.
  repeat split.
  - intros e H Hc. exists (new_project_request env org repoName).
    repeat split. now apply getUnlinkedProject_not_found.
  - now rewrite (getUnlinkedProject_found _ _ _ _ H).
  - now rewrite (getUnlinkedProject_found _ _ _ _ H).
  - now rewrite (getUnlinkedProject_failed _ _ _ _ H H0).
  - now rewrite (getUnlinkedProject_failed _ _ _ _ H H0).
  - intros settings url request answer. apply clone_creates_derived_name.
Qed.

(** *** Provisioning requests *)

(** C5: in a linked submission, a selected branch [refs/heads/b] goes
    into the provisioning request as [b]; the request is the first call
    of the submission and its only provisioning call;
    [refs/heads/main] is sent as [main]. *)
Theorem linked_branch_name (env : Env) (settings : WorkspaceSettings)
  (selectedProject : CawsProject) (repo : CawsRepo) (b : string) :
  let branch := {| branch_name := "refs/heads/" +:+ b; branch_repo := repo |} in
  let request := linked_request settings selectedProject repo b in
  createLinkedWorkspace env settings selectedProject branch =
    (client_createDevelopmentWorkspace env request,
     [CreateDevelopmentWorkspace request (client_createDevelopmentWorkspace env request)])
  /\ List.filter is_CreateDevelopmentWorkspace
       (trace (submit env settings (LinkedResponse selectedProject branch))) =
     [CreateDevelopmentWorkspace request (client_createDevelopmentWorkspace env request)]
  /\ JS.replace "refs/heads/" EmptyString "refs/heads/main" = "main".
Proof.
  intros branch request.
  assert (Hb : JS.replace "refs/heads/" EmptyString (branch_name branch) = b)
    by apply replace_prefix.
  assert (Hc : createLinkedWorkspace env settings selectedProject branch =
               (client_createDevelopmentWorkspace env request,
                [CreateDevelopmentWorkspace request
                   (client_createDevelopmentWorkspace env request)])).
  { unfold createLinkedWorkspace, createDevelopmentWorkspace, call. now rewrite Hb. }
  split; [exact Hc |]. split; [| reflexivity].
  unfold submit. rewrite Hc. unfold openDevelopmentWorkspace.
  destruct (client_createDevelopmentWorkspace env request); reflexivity.
Qed.

(** *** Order of the calls of a submission *)

(** Unfold a submission down to the answers of the environment, and
    split on each of them. *)
Ltac wizard :=
  unfold submit, createEmptyWorkpace, createLinkedWorkspace, cloneRepository,
    getUnlinkedProject, selectProject, selectOrg, getProject, createProject,
    createDevelopmentWorkspace, cloneToWorkspace, openDevelopmentWorkspace,
    bind, catch in *;
  answers.

Lemma provisioning_after_selections (env : Env) (settings : WorkspaceSettings)
  (source : SourceResponse) (pre post : list Event)
  (request : CreateDevelopmentWorkspaceRequest) (answer : Res DevelopmentWorkspaceId) :
  trace (submit env settings source) = pre ++ CreateDevelopmentWorkspace request answer :: post ->
  selections_succeeded source pre.
Proof.
  intros H. destruct source as [p b|url|]; simpl; [exact I | |].
  - wizard; cuts; eauto using in_eq, in_cons.
  - wizard; cuts; eauto using in_eq, in_cons.
Qed.

Lemma clone_after_provisioning (env : Env) (settings : WorkspaceSettings)
  (source : SourceResponse) (pre post : list Event)
  (workspace : DevelopmentWorkspaceId) (repo : RepoRef) (answer : Res unit) :
  trace (submit env settings source) = pre ++ CloneToWorkspace workspace repo answer :: post ->
  exists request, In (CreateDevelopmentWorkspace request (Ok workspace)) pre.
Proof.
  intros H. destruct source as [p b|url|].
  - wizard; cuts.
  - wizard; cuts; eauto 6 using in_eq, in_cons.
  - wizard; cuts.
Qed.

Lemma cancel_project_selection (env : Env) (settings : WorkspaceSettings) :
  selectCawsResource_project env = Ok None ->
  submit env settings EmptyResponse =
    (Throw (CancellationError "user"), [SelectProject (Ok None)]).
Proof. intros H. unfold submit, createEmptyWorkpace, selectProject, call. now rewrite H. Qed.

Lemma cancel_org_selection (env : Env) (settings : WorkspaceSettings)
  (url : string) (uri : Uri.t) (c : ascii) (s : string) :
  parseRepository env url = Ok (uri, Some (String c s)) ->
  selectCawsResource_org env = Ok None ->
  submit env settings (CloneResponse url) =
    (Throw (CancellationError "user"), [SelectOrg (Ok None)]).
Proof.
  intros Hp H. unfold submit, cloneRepository, selectOrg, call. rewrite Hp. simpl.
  now rewrite H.
Qed.

(** *** A clone submission, call by call *)

(** With the sample service, cloning [git@host.example:org/repo.git]
    asks for the organization, looks the project [repo] up, creates it,
    provisions the workspace, clones into it and opens it. *)
Example clone_submission_calls :
  submit sample_env sample_settings (CloneResponse "git@host.example:org/repo.git") =
    (Ok tt,
     [ SelectOrg (Ok (Some sample_org));
       GetProject "repo" "acme" (Throw (JsError (Some 404%Z) "Not Found"));
       CreateProject
         {| name := "repo"; cp_organizationName := "acme"; displayName := "repo";
            description := "Created by AWS Toolkit for Workspaces" |}
         (Ok {| project_name := "repo"; project_org := sample_org |});
       CreateDevelopmentWorkspace
         {| ides := [ {| ide_name := "VSCode" |} ];
            projectName := "repo"; organizationName := "acme";
            repositories := None; settings := sample_settings |}
         (Ok {| ws_id := "ws-1"; ws_org := "acme"; ws_project := "repo" |});
       CloneToWorkspace
         {| ws_id := "ws-1"; ws_org := "acme"; ws_project := "repo" |}
         {| rr_name := "repo";
            location := Uri.mk "ssh" "git@host.example:org" "/repo.git"
                          EmptyString EmptyString |}
         (Ok tt);
       OpenDevelopmentWorkspace
         {| ws_id := "ws-1"; ws_org := "acme"; ws_project := "repo" |} (Ok tt) ]).
Proof. reflexivity. Qed.

(** C6: in every submission, whatever the collaborators answer, a
    provisioning call comes only after the selections the variant asks
    for have been answered with a resource; a selection dismissed by the
    user ends the submission with the cancellation error, the trace
    holding the selection alone; and a clone call comes only after a
    provisioning call that has returned the very workspace it clones
    into. *)
Theorem provisioning_order (env : Env) (settings : WorkspaceSettings) (source : SourceResponse) :
  (forall pre request answer post,
     trace (submit env settings source) =
       pre ++ CreateDevelopmentWorkspace request answer :: post ->
     selections_succeeded source pre)
  /\ (selectCawsResource_project env = Ok None ->
        submit env settings EmptyResponse =
          (Throw (CancellationError "user"), [SelectProject (Ok None)]))
  /\ (forall url uri c s,
        parseRepository env url = Ok (uri, Some (String c s)) ->
        selectCawsResource_org env = Ok None ->
        submit env settings (CloneResponse url) =
          (Throw (CancellationError "user"), [SelectOrg (Ok None)]))
  /\ (forall pre workspace repo answer post,
        trace (submit env settings source) =
          pre ++ CloneToWorkspace workspace repo answer :: post ->
        exists request, In (CreateDevelopmentWorkspace request (Ok workspace)) pre).
Proof.
  split; [intros pre request answer post; apply provisioning_after_selections |].
  split; [apply cancel_project_selection |].
  split; [intros url uri c s; apply cancel_org_selection |].
  intros pre workspace repo answer post. apply clone_after_provisioning.
Qed.

(** C10: every provisioning request of a submission, in each of the
    three variants and whatever the collaborators answer, carries the
    IDE list with the single entry [VSCode]; and a submission that
    succeeds has made exactly one provisioning request. *)
Theorem provisioning_ides (env : Env) (settings : WorkspaceSettings) (source : SourceResponse) :
  Forall provisions_for_VSCode (trace (submit env settings source))
  /\ (outcome (submit env settings source) = Ok tt ->
      exists request workspace,
        List.filter is_CreateDevelopmentWorkspace (trace (submit env settings source)) =
          [CreateDevelopmentWorkspace request (Ok workspace)]
        /\ ides request = [ {| ide_name := "VSCode" |} ]).
Proof.
  split.
  - destruct source as [p b|url|]; wizard; repeat constructor.
  - intros H. destruct source as [p b|url|]; wizard;
      repeat match goal with
             | Hx : ?x = Ok _ |- context [?x] => rewrite Hx
             end;
      eauto.
Qed.

End CreateWorkspaceFacts.

(** ** The follow-up handler *)

Module FollowUpsFacts.

Import FollowUps.

Lemma is_auth_type_spec (t : string) :
  is_auth_type t = true <-> t = "full-auth" \/ t = "re-auth".
Proof.
  unfold is_auth_type. simpl. rewrite !orb_true_iff, !String.eqb_eq.
  intuition discriminate.
Qed.

Lemma auth_type_none (followUp : ChatItemFollowUp) :
  (forall t, fu_type followUp = Some t -> is_auth_type t = false) ->
  auth_type followUp = None.
Proof.
  intros H. unfold auth_type. destruct (fu_type followUp) as [t|]; [| reflexivity].
  now rewrite (H t eq_refl).
Qed.

Lemma onFollowUpClicked_forwards (props : Props) (tabID messageId : string)
  (followUp : ChatItemFollowUp) :
  (forall t, fu_type followUp = Some t -> is_auth_type t = false) ->
  onFollowUpClicked props tabID messageId followUp =
    (Ok tt,
     match prompt followUp with
     | Some p => prompt_calls props tabID p
     | None => []
     end ++ [OnFollowUpClicked tabID messageId followUp]).
Proof.
  intros H. unfold onFollowUpClicked. rewrite (auth_type_none _ H).
  destruct (prompt followUp); reflexivity.
Qed.

(** C3: for a follow-up whose kind is unset, or set to something that
    is no authentication kind, and whose prompt is present, the handler
    makes six calls in this order: the loading flags of the tab are
    set, the prompt item is appended, the empty answer-stream item is
    appended, the registry status of the tab is set to busy, its timer
    is reset, and the click is forwarded with the original tab,
    message and follow-up.  These are its only two chat items.  The
    forwarding is the last call whether the prompt is present or not. *)
Theorem prompt_follow_up_dispatch (props : Props) (tabID messageId : string)
  (followUp : ChatItemFollowUp) (p : string) :
  (forall t, fu_type followUp = Some t -> is_auth_type t = false) ->
  prompt followUp = Some p ->
  onFollowUpClicked props tabID messageId followUp =
    (Ok tt,
     [ UpdateStore tabID (LoadingFlags true true)
         (mynahUI_updateStore props tabID (LoadingFlags true true));
       AddChatItem tabID {| ci_type := PROMPT; body := p |};
       AddChatItem tabID {| ci_type := ANSWER_STREAM; body := EmptyString |};
       UpdateTabStatus tabID "busy";
       ResetTabTimer tabID;
       OnFollowUpClicked tabID messageId followUp ])
  /\ List.filter is_AddChatItem (trace (onFollowUpClicked props tabID messageId followUp)) =
       [ AddChatItem tabID {| ci_type := PROMPT; body := p |};
         AddChatItem tabID {| ci_type := ANSWER_STREAM; body := EmptyString |} ]
  /\ (forall other : ChatItemFollowUp,
        (forall t, fu_type other = Some t -> is_auth_type t = false) ->
        outcome (onFollowUpClicked props tabID messageId other) = Ok tt
        /\ List.filter is_OnFollowUpClicked
             (trace (onFollowUpClicked props tabID messageId other)) =
           [OnFollowUpClicked tabID messageId other]
        /\ List.last (trace (onFollowUpClicked props tabID messageId other))
             (OnAuthFollowUpClicked tabID EmptyString) =
           OnFollowUpClicked tabID messageId other).
Proof.
  intros H Hp. rewrite (onFollowUpClicked_forwards _ _ _ _ H), Hp.
  split; [reflexivity |]. split; [reflexivity |].
  intros other Ho. rewrite (onFollowUpClicked_forwards _ _ _ _ Ho).
  destruct (prompt other); repeat split; reflexivity.
Qed.

(** The click of the sample follow-up (kind unset, prompt present) on
    [tab-1]: the six calls, the loading flags first. *)
Lemma prompt_follow_up_dispatch_witness :
  onFollowUpClicked sample_props "tab-1" "message-1" sample_follow_up =
    (Ok tt,
     [ UpdateStore "tab-1" (LoadingFlags true true) None;
       AddChatItem "tab-1" {| ci_type := PROMPT; body := "Explain this code" |};
       AddChatItem "tab-1" {| ci_type := ANSWER_STREAM; body := EmptyString |};
       UpdateTabStatus "tab-1" "busy";
       ResetTabTimer "tab-1";
       OnFollowUpClicked "tab-1" "message-1" sample_follow_up ]).
Proof.
  destruct (prompt_follow_up_dispatch sample_props "tab-1" "message-1"
              sample_follow_up "Explain this code") as [H _].
  - intros t Ht. discriminate Ht.
  - reflexivity.
  - exact H.
Defined.

(** The order of the specification's property does not hold of that
    click: the loading flags are set before the two chat items are
    appended, not after. *)
Lemma prompt_items_after_loading_flags :
  trace (onFollowUpClicked sample_props "tab-1" "message-1" sample_follow_up) =
    [ UpdateStore "tab-1" (LoadingFlags true true) None;
      AddChatItem "tab-1" {| ci_type := PROMPT; body := "Explain this code" |};
      AddChatItem "tab-1" {| ci_type := ANSWER_STREAM; body := EmptyString |};
      UpdateTabStatus "tab-1" "busy";
      ResetTabTimer "tab-1";
      OnFollowUpClicked "tab-1" "message-1" sample_follow_up ]
  /\ items_before_state
       (trace (onFollowUpClicked sample_props "tab-1" "message-1" sample_follow_up)) = false.
Proof. split; reflexivity. Qed.

(** C4: for a follow-up whose kind is [full-auth] or [re-auth], the
    handler makes one call, the authentication callback with the tab
    and the kind: no chat item is appended, the registry is not called,
    the tab records are unchanged, and the click is not forwarded. *)
Theorem auth_follow_up_dispatch (props : Props) (tabID messageId : string)
  (followUp : ChatItemFollowUp) (kind : string) :
  fu_type followUp = Some kind ->
  kind = "full-auth" \/ kind = "re-auth" ->
  onFollowUpClicked props tabID messageId followUp =
    (Ok tt, [OnAuthFollowUpClicked tabID kind])
  /\ List.filter is_AddChatItem (trace (onFollowUpClicked props tabID messageId followUp)) = []
  /\ List.filter TabsStorage.is_registry_call
       (trace (onFollowUpClicked props tabID messageId followUp)) = []
  /\ List.filter is_OnFollowUpClicked
       (trace (onFollowUpClicked props tabID messageId followUp)) = []
  /\ (forall tabs : gmap string Tab,
        TabsStorage.replay (trace (onFollowUpClicked props tabID messageId followUp)) tabs = tabs).
Proof.
  intros Ht Hk. apply is_auth_type_spec in Hk.
  assert (E : onFollowUpClicked props tabID messageId followUp =
              (Ok tt, [OnAuthFollowUpClicked tabID kind])).
  { unfold onFollowUpClicked, auth_type. now rewrite Ht, Hk. }
  rewrite E. repeat split; reflexivity.
Qed.

(** A [re-auth] click that also carries a prompt: the prompt is ignored. *)
Lemma auth_follow_up_dispatch_witness :
  onFollowUpClicked sample_props "tab-1" "message-1" sample_auth_follow_up =
    (Ok tt, [OnAuthFollowUpClicked "tab-1" "re-auth"]).
Proof.
  destruct (auth_follow_up_dispatch sample_props "tab-1" "message-1"
              sample_auth_follow_up "re-auth") as [H _].
  - reflexivity.
  - right. reflexivity.
  - exact H.
Defined.

(** *** The welcome follow-ups *)

Lemma assign_code_task_calls (props : Props) (tabID newTabId : string) :
  mynahUI_updateStore props EmptyString (task_tab_data props) = Some newTabId ->
  onWelcomeFollowUpClicked props tabID "assign-code-task" =
    (Ok tt,
     [ UpdateStore EmptyString (task_tab_data props) (Some newTabId);
       AddTab {| id := newTabId; status := "busy"; type := "unknown";
                 isSelected := true; openInteractionType := "click" |};
       UpdateTabTypeFromUnknown tabID "cwc";
       OnUpdateTabType tabID;
       UpdateTabTypeFromUnknown newTabId "wb";
       OnUpdateTabType newTabId;
       OnKnownTabOpen newTabId ]).
Proof.
  intros H. unfold onWelcomeFollowUpClicked, updateStore, task_tab_data in *. simpl.
  now rewrite H.
Qed.

Lemma eqb_ne (a b : string) : a <> b -> String.eqb a b = false.
Proof. intros H. now apply String.eqb_neq. Qed.

(** C7: when the chat surface answers the [assign-code-task] follow-up
    with a new tab, one the registry does not know yet, and the
    originating tab is registered with type unknown, the handler
    registers the new tab and retags it, so that it ends with type
    [wb]; the originating tab ends with type [cwc]; and the backend is
    told of an opened tab once for the new tab and never for the
    originating one. *)
Theorem assign_code_task_success (props : Props) (tabID newTabId : string)
  (tabs : gmap string Tab) (origin : Tab) :
  mynahUI_updateStore props EmptyString (task_tab_data props) = Some newTabId ->
  tabs !! tabID = Some origin ->
  type origin = "unknown" ->
  tabs !! newTabId = None ->
  outcome (onWelcomeFollowUpClicked props tabID "assign-code-task") = Ok tt
  /\ trace (onWelcomeFollowUpClicked props tabID "assign-code-task") =
       [ UpdateStore EmptyString (task_tab_data props) (Some newTabId);
         AddTab {| id := newTabId; status := "busy"; type := "unknown";
                   isSelected := true; openInteractionType := "click" |};
         UpdateTabTypeFromUnknown tabID "cwc";
         OnUpdateTabType tabID;
         UpdateTabTypeFromUnknown newTabId "wb";
         OnUpdateTabType newTabId;
         OnKnownTabOpen newTabId ]
  /\ type <$> TabsStorage.replay
                (trace (onWelcomeFollowUpClicked props tabID "assign-code-task")) tabs
              !! newTabId = Some "wb"
  /\ type <$> TabsStorage.replay
                (trace (onWelcomeFollowUpClicked props tabID "assign-code-task")) tabs
              !! tabID = Some "cwc"
  /\ known_tab_opens newTabId
       (trace (onWelcomeFollowUpClicked props tabID "assign-code-task")) = 1
  /\ known_tab_opens tabID
       (trace (onWelcomeFollowUpClicked props tabID "assign-code-task")) = 0.
Proof.
  intros Hnew Horigin Hunknown Hfresh.
  assert (Hne : newTabId <> tabID) by (intros ->; congruence).
  rewrite (assign_code_task_calls _ _ _ Hnew).
  split; [reflexivity |]. split; [reflexivity |].
  unfold TabsStorage.replay, trace, known_tab_opens. simpl.
  unfold TabsStorage.addTab. simpl.
  assert (H1 : TabsStorage.updateTabTypeFromUnknown tabID "cwc"
                 (<[newTabId := {| id := newTabId; status := "busy"; type := "unknown";
                                   isSelected := true; openInteractionType := "click" |}]> tabs)
               = <[tabID := TabsStorage.with_type "cwc" origin]>
                   (<[newTabId := {| id := newTabId; status := "busy"; type := "unknown";
                                     isSelected := true; openInteractionType := "click" |}]> tabs)).
  { unfold TabsStorage.updateTabTypeFromUnknown.
    rewrite lookup_insert_ne by exact Hne. rewrite Horigin, Hunknown. reflexivity. }
  rewrite H1. unfold TabsStorage.updateTabTypeFromUnknown at 1 2.
  rewrite lookup_insert_ne by congruence. rewrite lookup_insert_eq. simpl.
  repeat split.
  - now rewrite lookup_insert_eq.
  - rewrite lookup_insert_ne by exact Hne. now rewrite lookup_insert_eq.
  - now rewrite String.eqb_refl.
  - now rewrite (eqb_ne _ _ Hne).
Qed.

(** From [tab-1], registered with type unknown, the sample surface
    opens [tab-2]. *)
Lemma assign_code_task_success_witness :
  type <$> TabsStorage.replay
             (trace (onWelcomeFollowUpClicked sample_props "tab-1" "assign-code-task"))
             sample_tabs !! "tab-2" = Some "wb"
  /\ type <$> TabsStorage.replay
               (trace (onWelcomeFollowUpClicked sample_props "tab-1" "assign-code-task"))
               sample_tabs !! "tab-1" = Some "cwc"
  /\ known_tab_opens "tab-2"
       (trace (onWelcomeFollowUpClicked sample_props "tab-1" "assign-code-task")) = 1
  /\ known_tab_opens "tab-1"
       (trace (onWelcomeFollowUpClicked sample_props "tab-1" "assign-code-task")) = 0.
Proof.
  destruct (assign_code_task_success sample_props "tab-1" "tab-2" sample_tabs sample_origin)
    as (_ & _ & H).
  - reflexivity.
  - vm_compute. reflexivity.
  - reflexivity.
  - vm_compute. reflexivity.
  - exact H.
Defined.

(** C8: when the chat surface answers the [assign-code-task] follow-up
    with no tab, the handler makes two calls: the request for the tab
    and one warning notification with the no-more-tabs text.  It calls
    the registry not at all, the tab records are unchanged, the backend
    hears nothing, and the handler returns normally. *)
Theorem assign_code_task_no_tab (props : Props) (tabID : string) :
  mynahUI_updateStore props EmptyString (task_tab_data props) = None ->
  onWelcomeFollowUpClicked props tabID "assign-code-task" =
    (Ok tt,
     [ UpdateStore EmptyString (task_tab_data props) None;
       Notify (noMoreTabsTooltip props) WARNING ])
  /\ List.filter TabsStorage.is_registry_call
       (trace (onWelcomeFollowUpClicked props tabID "assign-code-task")) = []
  /\ List.filter is_warning
       (trace (onWelcomeFollowUpClicked props tabID "assign-code-task")) =
     [ Notify (noMoreTabsTooltip props) WARNING ]
  /\ (forall tabs : gmap string Tab,
        TabsStorage.replay
          (trace (onWelcomeFollowUpClicked props tabID "assign-code-task")) tabs = tabs).
Proof.
  intros H.
  assert (E : onWelcomeFollowUpClicked props tabID "assign-code-task" =
              (Ok tt,
               [ UpdateStore EmptyString (task_tab_data props) None;
                 Notify (noMoreTabsTooltip props) WARNING ])).
  { unfold onWelcomeFollowUpClicked, updateStore, task_tab_data in *. simpl. now rewrite H. }
  rewrite E. repeat split; reflexivity.
Qed.

(** The surface without room answers with no tab. *)
Lemma assign_code_task_no_tab_witness :
  onWelcomeFollowUpClicked full_props "tab-1" "assign-code-task" =
    (Ok tt,
     [ UpdateStore EmptyString (task_tab_data full_props) None;
       Notify "You can only open ten conversation tabs at a time." WARNING ]).
Proof.
  destruct (assign_code_task_no_tab full_props "tab-1") as [H _].
  - reflexivity.
  - exact H.
Defined.

End FollowUpsFacts.

(** ** The wizard panel singleton *)

Module PanelFacts.

Import Panel.

Ltac panel_unfold :=
  unfold step, showCreateWorkspace, activePanel_or_new, show, onDidDispose, log,
    disposeWebview, dispose_callback, idle, pending, opened.

Ltac decided :=
  match goal with
  | |- context [bool_decide ?P] => destruct (bool_decide_reflect P)
  end.

(** Membership in the lists of at most one element the states hold. *)
Ltac members :=
  repeat match goal with
         | H : _ ∈ [] |- _ => apply elem_of_nil in H; destruct H
         | H : _ ∈ [_] |- _ => apply list_elem_of_singleton in H
         | H : _ ∉ [_] |- _ => rewrite list_elem_of_singleton in H
         end.

(** One step from a state of known shape, by evaluation. *)
Ltac panel_step :=
  panel_unfold; cbn;
  repeat (decided; members; cbn; try congruence);
  try reflexivity.

(** *** The steps, shape by shape *)

Lemma step_idle_request (cr rg : nat) (cs : list Event) (a : Res unit) :
  step (idle cr rg cs) (Request a) =
  match a with
  | Ok _ => opened cr rg (S cr) (S rg)
              (((cs ++ [NewPanel cr]) ++ [Show cr a]) ++ [OnDidDispose cr rg])
  | Throw _ => pending cr (S cr) rg ((cs ++ [NewPanel cr]) ++ [Show cr a])
  end.
Proof. destruct a; panel_step. Qed.

Lemma step_pending_request (p cr rg : nat) (cs : list Event) (a : Res unit) :
  step (pending p cr rg cs) (Request a) =
  match a with
  | Ok _ => opened p rg cr (S rg) ((cs ++ [Show p a]) ++ [OnDidDispose p rg])
  | Throw _ => pending p cr rg (cs ++ [Show p a])
  end.
Proof. destruct a; panel_step. Qed.

Lemma step_opened_request (p r cr rg : nat) (cs : list Event) (a : Res unit) :
  step (opened p r cr rg cs) (Request a) = opened p r cr rg (cs ++ [Show p a]).
Proof. destruct a; panel_step. Qed.

Lemma step_idle_dispose (q cr rg : nat) (cs : list Event) :
  step (idle cr rg cs) (Dispose q) = idle cr rg cs.
Proof. panel_step. Qed.

Lemma step_pending_dispose (q p cr rg : nat) (cs : list Event) :
  step (pending p cr rg cs) (Dispose q) = pending p cr rg cs.
Proof. panel_step. Qed.

Lemma step_opened_dispose (p r cr rg : nat) (cs : list Event) :
  step (opened p r cr rg cs) (Dispose p) = idle cr rg (cs ++ [DisposeSubscription r]).
Proof. panel_step. Qed.

Lemma step_opened_dispose_other (q p r cr rg : nat) (cs : list Event) :
  q <> p -> step (opened p r cr rg cs) (Dispose q) = opened p r cr rg cs.
Proof. intros H. panel_step. Qed.

(** *** The shapes are kept *)

Lemma shape_init : Shape init.
Proof. apply (Idle 0 0 []). Qed.

Lemma shape_step (st : State) (s : Step) : Shape st -> Shape (step st s).
Proof.
  intros [cr rg cs | p cr rg cs Hp | p r cr rg cs Hp Hr]; destruct s as [a|q].
  - rewrite step_idle_request. destruct a; constructor; lia.
  - rewrite step_idle_dispose. constructor.
  - rewrite step_pending_request. destruct a; constructor; lia.
  - rewrite step_pending_dispose. now constructor.
  - rewrite step_opened_request. now constructor.
  - destruct (decide (q = p)) as [->|Hq].
    + rewrite step_opened_dispose. constructor.
    + rewrite step_opened_dispose_other by exact Hq. now constructor.
Qed.

Lemma shape_run (steps : list Step) : Shape (run steps).
Proof.
  unfold run. generalize shape_init. generalize init.
  induction steps as [|s steps IH]; intros st H; simpl; [exact H |].
  apply IH. now apply shape_step.
Qed.

Lemma skipn_length_app {A} (l l' : list A) : List.skipn (length l) (l ++ l') = l'.
Proof. induction l; simpl; auto. Qed.

Lemma skipn_length_app2 {A} (l a b : list A) :
  List.skipn (length l) ((l ++ a) ++ b) = a ++ b.
Proof. rewrite <- app_assoc. apply skipn_length_app. Qed.

Lemma skipn_length_app3 {A} (l a b c : list A) :
  List.skipn (length l) (((l ++ a) ++ b) ++ c) = a ++ b ++ c.
Proof. rewrite <- !app_assoc. apply skipn_length_app. Qed.

Lemma instances_opened (p r cr rg : nat) (cs : list Event) :
  instances (opened p r cr rg cs) = [p].
Proof. unfold instances, opened. cbn. decided; [congruence | reflexivity]. Qed.

(** In each shape at most one instance exists. *)
Lemma shape_instances (st : State) : Shape st -> length (instances st) <= 1.
Proof.
  intros [cr rg cs | p cr rg cs Hp | p r cr rg cs Hp Hr].
  - cbn. lia.
  - cbn. lia.
  - rewrite instances_opened. simpl. lia.
Qed.

Ltac panel_calls :=
  unfold new_calls, idle, pending, opened; cbn [calls];
  rewrite ?skipn_length_app3, ?skipn_length_app2, ?skipn_length_app; cbn.

(** A request that follows a request creates nothing: it shows the
    instance the first one left. *)
Lemma request_twice (st : State) (a1 a2 : Res unit) :
  Shape st ->
  exists p,
    activePanel (step st (Request a1)) = Some p
    /\ activePanel (step (step st (Request a1)) (Request a2)) = Some p
    /\ created (step (step st (Request a1)) (Request a2)) = created (step st (Request a1))
    /\ List.filter is_panel_call
         (new_calls (step st (Request a1)) (step (step st (Request a1)) (Request a2))) =
       [Show p a2]
    /\ instances (step (step st (Request a1)) (Request a2)) = [p].
Proof.
  intros [cr rg cs | p cr rg cs Hp | p r cr rg cs Hp Hr].
  - exists cr. rewrite step_idle_request. destruct a1; lazy iota beta.
    + rewrite step_opened_request, instances_opened.
      repeat split; panel_calls; reflexivity.
    + rewrite step_pending_request.
      destruct a2; rewrite ?instances_opened; repeat split; panel_calls; reflexivity.
  - exists p. rewrite step_pending_request. destruct a1; lazy iota beta.
    + rewrite step_opened_request, instances_opened.
      repeat split; panel_calls; reflexivity.
    + rewrite step_pending_request.
      destruct a2; rewrite ?instances_opened; repeat split; panel_calls; reflexivity.
  - exists p. rewrite !step_opened_request, instances_opened.
    repeat split; panel_calls; reflexivity.
Qed.

(** After a request whose show succeeded, disposing the webview clears
    both module variables and the listener, no instance is left, and
    the next request creates a new instance and shows it. *)
Lemma dispose_then_request (st : State) (a : Res unit) :
  Shape st ->
  exists p,
    activePanel (step st (Request (Ok tt))) = Some p
    /\ webviews (step st (Request (Ok tt))) = [p]
    /\ activePanel (step (step st (Request (Ok tt))) (Dispose p)) = None
    /\ subscriptions (step (step st (Request (Ok tt))) (Dispose p)) = None
    /\ listeners (step (step st (Request (Ok tt))) (Dispose p)) = []
    /\ instances (step (step st (Request (Ok tt))) (Dispose p)) = []
    /\ p < created (step (step st (Request (Ok tt))) (Dispose p))
    /\ activePanel (step (step (step st (Request (Ok tt))) (Dispose p)) (Request a)) =
         Some (created (step (step st (Request (Ok tt))) (Dispose p)))
    /\ List.filter is_panel_call
         (new_calls (step (step st (Request (Ok tt))) (Dispose p))
            (step (step (step st (Request (Ok tt))) (Dispose p)) (Request a))) =
       [ NewPanel (created (step (step st (Request (Ok tt))) (Dispose p)));
         Show (created (step (step st (Request (Ok tt))) (Dispose p))) a ].
Proof.
  intros [cr rg cs | p cr rg cs Hp | p r cr rg cs Hp Hr].
  - exists cr. rewrite step_idle_request, step_opened_dispose, step_idle_request.
    destruct a; repeat split; try (cbn; lia); panel_calls; reflexivity.
  - exists p. rewrite step_pending_request, step_opened_dispose, step_idle_request.
    destruct a; repeat split; try (cbn; lia); panel_calls; reflexivity.
  - exists p. rewrite step_opened_request, step_opened_dispose, step_idle_request.
    destruct a; repeat split; try (cbn; lia); panel_calls; reflexivity.
Qed.

(** Two requests, the disposal of the panel, and a third request. *)
Example request_request_dispose_request :
  calls (run [Request (Ok tt); Request (Ok tt); Dispose 0; Request (Ok tt)]) =
    [ NewPanel 0; Show 0 (Ok tt); OnDidDispose 0 0;
      Show 0 (Ok tt);
      DisposeSubscription 0;
      NewPanel 1; Show 1 (Ok tt); OnDidDispose 1 1 ].
Proof. reflexivity. Qed.

(** C9: in every state the wizard can reach by requests and disposals,
    at most one panel instance exists; a request that follows a request
    creates no instance and shows the existing one again; disposing the
    shown panel clears the instance reference, the subscriptions and the
    dispose listener, and the request after it creates and shows a new
    instance. *)
Theorem wizard_panel_singleton (steps : list Step) :
  length (instances (run steps)) <= 1
  /\ (forall a1 a2 : Res unit,
        exists p,
          activePanel (step (run steps) (Request a1)) = Some p
          /\ activePanel (step (step (run steps) (Request a1)) (Request a2)) = Some p
          /\ created (step (step (run steps) (Request a1)) (Request a2)) =
               created (step (run steps) (Request a1))
          /\ List.filter is_panel_call
               (new_calls (step (run steps) (Request a1))
                  (step (step (run steps) (Request a1)) (Request a2))) =
             [Show p a2]
          /\ instances (step (step (run steps) (Request a1)) (Request a2)) = [p])
  /\ (forall a : Res unit,
        exists p,
          activePanel (step (run steps) (Request (Ok tt))) = Some p
          /\ webviews (step (run steps) (Request (Ok tt))) = [p]
          /\ activePanel (step (step (run steps) (Request (Ok tt))) (Dispose p)) = None
          /\ subscriptions (step (step (run steps) (Request (Ok tt))) (Dispose p)) = None
          /\ listeners (step (step (run steps) (Request (Ok tt))) (Dispose p)) = []
          /\ instances (step (step (run steps) (Request (Ok tt))) (Dispose p)) = []
          /\ p < created (step (step (run steps) (Request (Ok tt))) (Dispose p))
          /\ activePanel
               (step (step (step (run steps) (Request (Ok tt))) (Dispose p)) (Request a)) =
               Some (created (step (step (run steps) (Request (Ok tt))) (Dispose p)))
          /\ List.filter is_panel_call
               (new_calls (step (step (run steps) (Request (Ok tt))) (Dispose p))
                  (step (step (step (run steps) (Request (Ok tt))) (Dispose p)) (Request a))) =
             [ NewPanel (created (step (step (run steps) (Request (Ok tt))) (Dispose p)));
               Show (created (step (step (run steps) (Request (Ok tt))) (Dispose p))) a ]).
Proof.
  pose proof (shape_run steps) as H.
  split; [now apply shape_instances |].
  split; [intros a1 a2; now apply request_twice |].
  intros a. now apply dispose_then_request.
Qed.

End PanelFacts.

(** * Further properties *)

(** ** The calls of a submission *)

Module SubmissionFacts.

Import JS JSFacts CreateWorkspace CreateWorkspaceFacts SubmissionCalls.

(** Put the answers already split on back into the goal. *)
Ltac known :=
  repeat match goal with
         | Hx : ?x = Ok _ |- context [?x] => rewrite Hx
         | Hx : ?x = Throw _ |- context [?x] => rewrite Hx
         end.

(** X1: whatever the collaborators answer, the calls of a submission
    are, kind by kind, a selection of the calls of its variant in the
    order of the source: each collaborator is called at most once, none
    out of turn, and none that belongs to another variant. *)
Theorem submission_follows_pipeline (env : Env) (settings : WorkspaceSettings)
  (source : SourceResponse) :
  map collaborator (trace (submit env settings source)) `sublist_of` pipeline source.
Proof.
  destruct source as [p b|url|]; wizard;
    repeat first [apply sublist_nil | apply sublist_skip | apply sublist_cons].
Qed.

(** X2: the first call of a submission that fails ends it, and the
    submission fails with that very error; the one exception is a
    project lookup answered with status 404.  Nothing is called after a
    failure: a workspace provisioned before a failed clone is neither
    opened nor taken back. *)
Theorem first_failure_ends_submission (env : Env) (settings : WorkspaceSettings)
  (source : SourceResponse) (pre post : list Event) (ev : Event) (e : Exn) :
  trace (submit env settings source) = pre ++ ev :: post ->
  failure ev = Some e ->
  is_not_found ev = false ->
  post = [] /\ outcome (submit env settings source) = Throw e.
Proof.
  intros H Hf Hn. destruct source as [p b|url|]; wizard; cuts;
    unfold error_of in *; answers; auto; try contradiction; try congruence.
Qed.

Lemma first_failure_ends_submission_witness :
  outcome (submit failing_env sample_settings EmptyResponse) =
    Throw (JsError (Some 500%Z) "Internal Server Error").
Proof.
  destruct (first_failure_ends_submission failing_env sample_settings EmptyResponse
              [SelectProject (Ok (Some sample_project))] []
              (CreateDevelopmentWorkspace
                 {| ides := [ {| ide_name := "VSCode" |} ];
                    projectName := "widgets"; organizationName := "acme";
                    repositories := None; settings := sample_settings |}
                 (Throw (JsError (Some 500%Z) "Internal Server Error")))
              (JsError (Some 500%Z) "Internal Server Error")) as [_ H].
  - reflexivity.
  - reflexivity.
  - reflexivity.
  - exact H.
Defined.

(** X3: the opening of the workspace is the last call of a submission,
    its answer is the result of the submission, and the workspace
    opened is one that provisioning has returned; a submission that
    succeeds has ended with that call. *)
Theorem opening_ends_submission (env : Env) (settings : WorkspaceSettings)
  (source : SourceResponse) :
  (forall pre workspace answer post,
     trace (submit env settings source) =
       pre ++ OpenDevelopmentWorkspace workspace answer :: post ->
     post = []
     /\ outcome (submit env settings source) = answer
     /\ exists request, In (CreateDevelopmentWorkspace request (Ok workspace)) pre)
  /\ (outcome (submit env settings source) = Ok tt ->
      exists pre workspace,
        trace (submit env settings source) =
          pre ++ [OpenDevelopmentWorkspace workspace (Ok tt)]).
Proof.
  split.
  - intros pre workspace answer post H.
    destruct source as [p b|url|]; wizard; cuts; known;
      repeat split; eauto 8 using in_eq, in_cons.
  - intros H. destruct source as [p b|url|]; wizard; known.
    all: try (eexists [_], _; reflexivity).
    all: try (eexists [_; _], _; reflexivity).
    all: try (eexists [_; _; _], _; reflexivity).
    all: try (eexists [_; _; _; _], _; reflexivity).
    all: try (eexists [_; _; _; _; _], _; reflexivity).
Qed.

(** X4: every provisioning request of a submission carries the settings
    of the form as they were submitted. *)
Theorem provisioning_settings (env : Env) (s : WorkspaceSettings) (source : SourceResponse) :
  Forall (carries_settings s) (trace (submit env s source)).
Proof. destruct source as [p b|url|]; wizard; repeat constructor. Qed.

(** X5: in a clone submission the workspace is provisioned in the
    project the resolution has given, the one found or the one created,
    under that project's organization, and without a repository
    list. *)
Theorem clone_provisions_resolved_project (env : Env) (settings : WorkspaceSettings)
  (url : string) (pre post : list Event)
  (request : CreateDevelopmentWorkspaceRequest) (answer : Res DevelopmentWorkspaceId) :
  trace (submit env settings (CloneResponse url)) =
    pre ++ CreateDevelopmentWorkspace request answer :: post ->
  exists project,
    resolved pre project
    /\ projectName request = project_name project
    /\ organizationName request = org_name (project_org project)
    /\ repositories request = None.
Proof.
  intros H. unfold resolved. wizard; cuts; known;
    refine (ex_intro _ _ (conj _ (conj eq_refl (conj eq_refl eq_refl))));
    first [ solve [left; do 2 eexists; simpl; eauto 6]
          | solve [right; eexists; simpl; eauto 6] ].
Qed.

Lemma clone_provisions_resolved_project_witness :
  exists project,
    resolved
      [ SelectOrg (Ok (Some sample_org));
        GetProject "repo" "acme" (Throw (JsError (Some 404%Z) "Not Found"));
        CreateProject
          {| name := "repo"; cp_organizationName := "acme"; displayName := "repo";
             description := "Created by AWS Toolkit for Workspaces" |}
          (Ok {| project_name := "repo"; project_org := sample_org |}) ]
      project
    /\ "repo" = project_name project
    /\ "acme" = org_name (project_org project)
    /\ @None (list RepositoryInput) = None.
Proof.
  apply (clone_provisions_resolved_project sample_env sample_settings
           "git@host.example:org/repo.git" _
           [ CloneToWorkspace
               {| ws_id := "ws-1"; ws_org := "acme"; ws_project := "repo" |}
               {| rr_name := "repo";
                  location := Uri.mk "ssh" "git@host.example:org" "/repo.git"
                                EmptyString EmptyString |}
               (Ok tt);
             OpenDevelopmentWorkspace
               {| ws_id := "ws-1"; ws_org := "acme"; ws_project := "repo" |} (Ok tt) ]
           {| ides := [ {| ide_name := "VSCode" |} ];
              projectName := "repo"; organizationName := "acme";
              repositories := None; settings := sample_settings |}
           (Ok {| ws_id := "ws-1"; ws_org := "acme"; ws_project := "repo" |})).
  reflexivity.
Defined.

(** X6: in a clone submission no collaborator is called, and no prompt
    shown, unless the URL has parsed and given a repository name that
    is not empty; the project is looked up under that name in the
    organization the user picked, and the repository cloned is the
    parsed URI under that name. *)
Theorem clone_calls_use_parsed_repository (env : Env) (settings : WorkspaceSettings)
  (url : string) :
  (forall ev, In ev (trace (submit env settings (CloneResponse url))) ->
     exists uri c s, parseRepository env url = Ok (uri, Some (String c s)))
  /\ (forall name organizationName answer,
        In (GetProject name organizationName answer)
           (trace (submit env settings (CloneResponse url))) ->
        exists uri org,
          parseRepository env url = Ok (uri, Some name)
          /\ selectCawsResource_org env = Ok (Some org)
          /\ organizationName = org_name org)
  /\ (forall workspace repo answer,
        In (CloneToWorkspace workspace repo answer)
           (trace (submit env settings (CloneResponse url))) ->
        parseRepository env url = Ok (location repo, Some (rr_name repo))).
Proof.
  repeat split.
  - intros ev H. wizard; try contradiction; eauto.
  - intros name organizationName answer H. wizard; destruct_or?; simplify_eq/=; eauto.
  - intros workspace repo answer H. wizard; destruct_or?; simplify_eq/=; eauto.
Qed.

(** X19: in an empty submission the workspace is provisioned in the
    project the user picked at the prompt, under its organization and
    without a repository list; in a linked submission it is provisioned
    in the project of the form, as the first call, with one repository
    entry, which names the repository of the selected branch. *)
Theorem provisioning_targets_selection (env : Env) (settings : WorkspaceSettings) :
  (forall pre request answer post,
     trace (submit env settings EmptyResponse) =
       pre ++ CreateDevelopmentWorkspace request answer :: post ->
     exists project,
       pre = [SelectProject (Ok (Some project))]
       /\ projectName request = project_name project
       /\ organizationName request = org_name (project_org project)
       /\ repositories request = None)
  /\ (forall selectedProject selectedBranch pre request answer post,
        trace (submit env settings (LinkedResponse selectedProject selectedBranch)) =
          pre ++ CreateDevelopmentWorkspace request answer :: post ->
        pre = []
        /\ projectName request = project_name selectedProject
        /\ organizationName request = org_name (project_org selectedProject)
        /\ exists branch,
             repositories request =
               Some [ {| repositoryName := repo_name (branch_repo selectedBranch);
                         branchName := branch |} ]).
Proof.
  split.
  - intros pre request answer post H. wizard; cuts; eauto.
  - intros selectedProject selectedBranch pre request answer post H.
    wizard; cuts; repeat split; eauto.
Qed.

End SubmissionFacts.

(** ** Repository URLs and branch names *)

Module UrlFacts.

Import JS JSFacts CreateWorkspace CreateWorkspaceFacts.

Lemma isSchemeless_ssh (url : string) : isSchemeless ("ssh://" +:+ url) = false.
Proof. reflexivity. Qed.

Lemma isSchemeless_colon (scheme rest : string) :
  all_word scheme -> isSchemeless (scheme +:+ ":" +:+ rest) = false.
Proof.
  unfold isSchemeless, all_word.
  induction scheme as [|c scheme IH]; intros Hw; [reflexivity |].
  simpl in Hw. apply andb_prop in Hw as [Hc Hw].
  destruct scheme as [|d scheme'].
  - rewrite append_cons, append_nil. simpl. now rewrite Hc.
  - assert (Hd : d <> "@"%char).
    { simpl in Hw. apply andb_prop in Hw as [Hd _]. intros ->. discriminate Hd. }
    assert (Hrec : word_run_then_at (String d scheme' +:+ ":" +:+ rest) = false)
      by now apply IH.
    rewrite !append_cons in *. simpl in *. rewrite Hc. simpl.
    destruct d as [[] [] [] [] [] [] [] []]; try exact Hrec; now contradiction Hd.
Qed.

(** X7: the SSH scheme is prefixed at most once, and never to a URL
    that names its scheme: prefixing is idempotent, and a URL that
    starts with a run of word characters closed by a colon is parsed as
    it is. *)
Theorem withScheme_once :
  (forall url, withScheme (withScheme url) = withScheme url)
  /\ (forall scheme rest, all_word scheme ->
        withScheme (scheme +:+ ":" +:+ rest) = scheme +:+ ":" +:+ rest).
Proof.
  split.
  - intros url. unfold withScheme at 2 3. destruct (isSchemeless url) eqn:E.
    + unfold withScheme. now rewrite isSchemeless_ssh.
    + unfold withScheme. now rewrite E.
  - intros scheme rest Hw. unfold withScheme. now rewrite isSchemeless_colon.
Qed.

(** Every path is free of slashes, or splits at its last slash. *)
Lemma path_cases (path : string) :
  slash_free path
  \/ exists dir seg, path = dir +:+ String "/" seg /\ slash_free seg.
Proof.
  induction path as [|c path IH].
  - left. unfold slash_free. simpl. tauto.
  - destruct IH as [Hf | (dir & seg & -> & Hs)].
    + destruct (Ascii.eqb c "/") eqn:E.
      * apply Ascii.eqb_eq in E. subst c. right. now exists EmptyString, path.
      * left. unfold slash_free in *. simpl. intros [-> | Hin]; [| now apply Hf].
        now rewrite Ascii.eqb_refl in E.
    + right. now exists (String c dir), seg.
Qed.

Lemma replace_dot_git_unfold (c : ascii) (s : string) :
  replace_dot_git_at_end (String c s) =
  if String.eqb (String c s) ".git" then EmptyString
  else String c (replace_dot_git_at_end s).
Proof. reflexivity. Qed.

Lemma replace_dot_git_chars (s : string) (x : ascii) :
  In x (list_ascii_of_string (replace_dot_git_at_end s)) -> In x (list_ascii_of_string s).
Proof.
  induction s as [|c s IH]; [simpl; tauto |].
  rewrite replace_dot_git_unfold.
  destruct (String.eqb (String c s) ".git"); simpl; [tauto |].
  intros [-> | Hin]; [now left | right; now apply IH].
Qed.

Lemma replace_dot_git_empty (s : string) :
  replace_dot_git_at_end s = EmptyString <-> s = EmptyString \/ s = ".git".
Proof.
  destruct s as [|c s]; [simpl; tauto |].
  rewrite replace_dot_git_unfold.
  destruct (String.eqb (String c s) ".git") eqn:E.
  - apply String.eqb_eq in E. tauto.
  - apply String.eqb_neq in E. split; [discriminate |].
    intros [H | H]; [discriminate | contradiction].
Qed.

Lemma repoName_of_path_slash_free (path : string) :
  slash_free path -> repoName_of_path path = Some (replace_dot_git_at_end path).
Proof. intros H. unfold repoName_of_path. now rewrite split_slash_free. Qed.

Lemma repoName_of_path_last (dir seg : string) :
  slash_free seg ->
  repoName_of_path (dir +:+ String "/" seg) = Some (replace_dot_git_at_end seg).
Proof. intros H. unfold repoName_of_path. now rewrite pop_split. Qed.

(** X8: every path gives a repository name (the array that is popped
    is never empty), the name holds no slash, and it is empty, which is
    what the wizard rejects, exactly when the path is empty, is [.git],
    ends in a slash or ends in [/.git]. *)
Theorem derived_name_shape (path : string) :
  exists name,
    repoName_of_path path = Some name
    /\ slash_free name
    /\ (name = EmptyString <->
        path = EmptyString \/ path = ".git"
        \/ exists dir, path = dir +:+ "/" \/ path = dir +:+ "/.git").
Proof.
  destruct (path_cases path) as [Hf | (dir & seg & -> & Hs)].
  - exists (replace_dot_git_at_end path).
    split; [now apply repoName_of_path_slash_free |].
    split; [intros Hin; apply Hf; now apply replace_dot_git_chars |].
    rewrite replace_dot_git_empty. split; [tauto |].
    intros [H | [H | (dir & [-> | ->])]]; [tauto | tauto | |];
      exfalso; apply Hf; rewrite list_ascii_append; apply in_or_app; right; now left.
  - exists (replace_dot_git_at_end seg).
    split; [now apply repoName_of_path_last |].
    split; [intros Hin; apply Hs; now apply replace_dot_git_chars |].
    rewrite replace_dot_git_empty. split.
    + intros [-> | ->]; right; right; exists dir; [left | right]; reflexivity.
    + intros H.
      assert (Hn : repoName_of_path (dir +:+ String "/" seg) = Some EmptyString).
      { destruct H as [H | [H | (d & [H | H])]]; rewrite H; try reflexivity.
        - change (d +:+ "/") with (d +:+ String "/" EmptyString).
          rewrite repoName_of_path_last; [reflexivity | unfold slash_free; simpl; tauto].
        - change (d +:+ "/.git") with (d +:+ String "/" ".git").
          rewrite repoName_of_path_last; [reflexivity |].
          unfold slash_free. simpl. intuition discriminate. }
      rewrite repoName_of_path_last in Hn by exact Hs.
      injection Hn as Hn. now apply replace_dot_git_empty.
Qed.

Lemma starts_with_split (pat s : string) :
  starts_with pat s = true -> s = pat +:+ drop (String.length pat) s.
Proof.
  revert s. induction pat as [|a pat IH]; intros s H; [reflexivity |].
  destruct s as [|b s]; [discriminate |]. simpl in H.
  apply andb_prop in H as [Hab H]. apply Ascii.eqb_eq in Hab. subst b.
  rewrite append_cons. simpl. f_equal. now apply IH.
Qed.

Lemma replace_unfold (pat rep : string) (c : ascii) (s : string) :
  replace pat rep (String c s) =
  if starts_with pat (String c s) then rep +:+ drop (String.length pat) (String c s)
  else String c (replace pat rep s).
Proof. reflexivity. Qed.

(** A string without an occurrence of the pattern is returned as it is. *)
Lemma replace_absent (pat rep s : string) :
  (forall a b, s <> a +:+ pat +:+ b) -> replace pat rep s = s.
Proof.
  induction s as [|c s IH]; intros H.
  - destruct pat; [| reflexivity]. exfalso. now apply (H EmptyString EmptyString).
  - rewrite replace_unfold. destruct (starts_with pat (String c s)) eqn:E.
    + exfalso. apply (H EmptyString (drop (String.length pat) (String c s))).
      rewrite append_nil. now apply starts_with_split.
    + f_equal. apply IH. intros a b ->. now apply (H (String c a) b).
Qed.

(** An occurrence behind a stretch without the letter [r] is the first
    one, and is removed. *)
Lemma replace_inner (a b : string) :
  ~ In "r"%char (list_ascii_of_string a) ->
  replace "refs/heads/" EmptyString (a +:+ "refs/heads/" +:+ b) = a +:+ b.
Proof.
  induction a as [|c a IH]; intros H.
  - rewrite !append_nil. apply replace_prefix.
  - rewrite !append_cons, replace_unfold.
    assert (Hc : Ascii.eqb "r" c = false).
    { apply Ascii.eqb_neq. intros <-. apply H. now left. }
    cbn [starts_with]. rewrite Hc. simpl. f_equal. apply IH.
    intros Hin. apply H. now right.
Qed.

(** X9: the branch name of a linked submission is rewritten by an
    unanchored replacement of the first [refs/heads/]: a name that does
    not hold that text is sent as it is, and a name that holds it
    behind a stretch without the letter [r] loses it there, so that
    [a] followed by [refs/heads/] and [b] is sent as [a] followed by
    [b]. *)
Theorem linked_branch_replacement (env : Env) (settings : WorkspaceSettings)
  (selectedProject : CawsProject) (repo : CawsRepo) :
  (forall name,
     (forall a b, name <> a +:+ "refs/heads/" +:+ b) ->
     createLinkedWorkspace env settings selectedProject
       {| branch_name := name; branch_repo := repo |} =
     createDevelopmentWorkspace env (linked_request settings selectedProject repo name))
  /\ (forall a b,
        ~ In "r"%char (list_ascii_of_string a) ->
        createLinkedWorkspace env settings selectedProject
          {| branch_name := a +:+ "refs/heads/" +:+ b; branch_repo := repo |} =
        createDevelopmentWorkspace env
          (linked_request settings selectedProject repo (a +:+ b))).
Proof.
  split.
  - intros name H. unfold createLinkedWorkspace, linked_request. simpl.
    now rewrite replace_absent.
  - intros a b H. unfold createLinkedWorkspace, linked_request. simpl.
    now rewrite replace_inner.
Qed.

End UrlFacts.

(** ** More on the follow-up handler *)

Module FollowUpsCallsFacts.

Import FollowUps FollowUpsFacts FollowUpsCalls.

(** A registry call about one tab leaves every other tab as it is. *)
Lemma apply_other (tabs : gmap string Tab) (ev : Event) (other : string) :
  tab_of ev <> Some other -> TabsStorage.apply tabs ev !! other = tabs !! other.
Proof.
  intros H. destruct ev; simpl in *; try reflexivity.
  - unfold TabsStorage.updateTabStatus. destruct (tabs !! tabID); [| reflexivity].
    apply lookup_insert_ne. congruence.
  - unfold TabsStorage.addTab. apply lookup_insert_ne. congruence.
  - unfold TabsStorage.updateTabTypeFromUnknown.
    destruct (tabs !! tabID) as [tab|]; [| reflexivity].
    destruct (String.eqb (type tab) "unknown"); [| reflexivity].
    apply lookup_insert_ne. congruence.
Qed.

Lemma apply_no_registry_call (tabs : gmap string Tab) (ev : Event) :
  TabsStorage.is_registry_call ev = false -> TabsStorage.apply tabs ev = tabs.
Proof. destruct ev; simpl; intros H; first [reflexivity | discriminate H]. Qed.

Lemma replay_other (calls : list Event) (tabs : gmap string Tab) (other : string) :
  Forall (fun ev => TabsStorage.is_registry_call ev = false \/ tab_of ev <> Some other) calls ->
  TabsStorage.replay calls tabs !! other = tabs !! other.
Proof.
  unfold TabsStorage.replay. revert tabs.
  induction calls as [|ev calls IH]; intros tabs H; [reflexivity |].
  inversion H as [|? ? Hev Hrest]; subst. simpl. rewrite IH by exact Hrest.
  destruct Hev as [Hev | Hev].
  - now rewrite apply_no_registry_call.
  - now apply apply_other.
Qed.

(** Call by call: no registry call, or one about another tab. *)
Ltac frame :=
  repeat (apply List.Forall_cons;
          [simpl; first [left; reflexivity | right; congruence] |]);
  apply List.Forall_nil.

(** X10: every click on a follow-up, whatever its kind and prompt, ends
    with exactly one call on the connector, the authentication callback
    for an authentication kind and the forwarding of the click
    otherwise, never both; the chat items appended before it are two
    when the prompt branch runs and none otherwise; and the handler
    returns normally. *)
Theorem follow_up_click_one_connector_call (props : Props) (tabID messageId : string)
  (followUp : ChatItemFollowUp) :
  outcome (onFollowUpClicked props tabID messageId followUp) = Ok tt
  /\ (exists pre,
        trace (onFollowUpClicked props tabID messageId followUp) =
          pre ++ [connector_call_of tabID messageId followUp]
        /\ List.filter is_connector_call pre = [])
  /\ length (List.filter is_AddChatItem
               (trace (onFollowUpClicked props tabID messageId followUp))) =
     (if runs_prompt_branch followUp then 2 else 0).
Proof.
  unfold onFollowUpClicked, connector_call_of, runs_prompt_branch.
  destruct (auth_type followUp) as [t|], (prompt followUp) as [p|];
    (split; [reflexivity |]); (split; [| reflexivity]).
  - now exists [].
  - now exists [].
  - now exists (prompt_calls props tabID p).
  - now exists [].
Qed.

(** X11: a click on a follow-up of one tab concerns that tab alone:
    every call it makes carries the identifier of the clicked tab, and
    the record of every other tab is left as it is. *)
Theorem follow_up_click_is_local (props : Props) (tabID messageId : string)
  (followUp : ChatItemFollowUp) :
  Forall (fun ev => tab_of ev = Some tabID)
    (trace (onFollowUpClicked props tabID messageId followUp))
  /\ (forall (tabs : gmap string Tab) (other : string),
        other <> tabID ->
        TabsStorage.replay (trace (onFollowUpClicked props tabID messageId followUp)) tabs
          !! other = tabs !! other).
Proof.
  assert (H : Forall (fun ev => tab_of ev = Some tabID)
                (trace (onFollowUpClicked props tabID messageId followUp))).
  { unfold onFollowUpClicked.
    destruct (auth_type followUp), (prompt followUp); repeat constructor. }
  split; [exact H |].
  intros tabs other Hne. apply replay_other.
  eapply Forall_impl; [exact H |]. simpl. intros ev Hev. right. congruence.
Qed.

Lemma continue_to_chat_calls (props : Props) (tabID : string) :
  onWelcomeFollowUpClicked props tabID "continue-to-chat" =
    (Ok tt,
     [ AddChatItem tabID continue_reply;
       UpdateTabTypeFromUnknown tabID "cwc";
       OnUpdateTabType tabID ]).
Proof. reflexivity. Qed.

(** X12: the [continue-to-chat] follow-up appends the one fixed reply
    to the tab, asks the registry to retag the tab and tells the
    backend, in this order; it asks for no new tab.  A tab registered
    with type unknown ends with the chat type, every other field kept;
    a tab of another type keeps its record, and the backend is told all
    the same; the other tabs are left as they are. *)
Theorem continue_to_chat_retags (props : Props) (tabID : string) :
  onWelcomeFollowUpClicked props tabID "continue-to-chat" =
    (Ok tt,
     [ AddChatItem tabID continue_reply;
       UpdateTabTypeFromUnknown tabID "cwc";
       OnUpdateTabType tabID ])
  /\ (forall (tabs : gmap string Tab) (tab : Tab),
        tabs !! tabID = Some tab ->
        TabsStorage.replay
          (trace (onWelcomeFollowUpClicked props tabID "continue-to-chat")) tabs !! tabID =
        Some (if String.eqb (type tab) "unknown"
              then TabsStorage.with_type "cwc" tab else tab))
  /\ (forall (tabs : gmap string Tab) (other : string),
        other <> tabID ->
        TabsStorage.replay
          (trace (onWelcomeFollowUpClicked props tabID "continue-to-chat")) tabs !! other =
        tabs !! other).
Proof.
  rewrite continue_to_chat_calls. split; [reflexivity |]. split.
  - intros tabs tab H. unfold TabsStorage.replay, trace. simpl.
    unfold TabsStorage.updateTabTypeFromUnknown. rewrite H.
    destruct (String.eqb (type tab) "unknown"); [apply lookup_insert_eq | exact H].
  - intros tabs other Hne. apply replay_other. unfold trace. simpl.
    frame.
Qed.

(** X13: only the [assign-code-task] follow-up can bring a new tab
    about: under any other type nothing is asked of the chat surface
    for a new tab, no tab is added or announced, and no warning is
    shown; under a type that is not [continue-to-chat] either, the
    handler calls nothing at all. *)
Theorem welcome_other_types (props : Props) (tabID welcomeFollowUpType : string) :
  welcomeFollowUpType <> "assign-code-task" ->
  List.filter concerns_new_tab
    (trace (onWelcomeFollowUpClicked props tabID welcomeFollowUpType)) = []
  /\ List.filter is_warning
       (trace (onWelcomeFollowUpClicked props tabID welcomeFollowUpType)) = []
  /\ (welcomeFollowUpType <> "continue-to-chat" ->
      onWelcomeFollowUpClicked props tabID welcomeFollowUpType = (Ok tt, [])).
Proof.
  intros H. unfold onWelcomeFollowUpClicked. rewrite (eqb_ne _ _ H).
  destruct (String.eqb welcomeFollowUpType "continue-to-chat") eqn:E.
  - repeat split; try reflexivity. intros Hc. apply String.eqb_eq in E. contradiction.
  - repeat split; reflexivity.
Qed.

Lemma welcome_other_types_witness :
  onWelcomeFollowUpClicked sample_props "tab-1" "explain-code" = (Ok tt, []).
Proof.
  destruct (welcome_other_types sample_props "tab-1" "explain-code") as (_ & _ & H).
  - discriminate.
  - apply H. discriminate.
Defined.

(** X14: when [assign-code-task] is clicked on a tab whose type is
    already known, that tab keeps its record, yet the backend is still
    told of a type update for it; the new tab ends with type [wb]; and
    no third tab is touched. *)
Theorem assign_code_task_typed_origin (props : Props) (tabID newTabId : string)
  (tabs : gmap string Tab) (origin : Tab) :
  mynahUI_updateStore props EmptyString (task_tab_data props) = Some newTabId ->
  tabs !! tabID = Some origin ->
  type origin <> "unknown" ->
  tabs !! newTabId = None ->
  TabsStorage.replay
    (trace (onWelcomeFollowUpClicked props tabID "assign-code-task")) tabs !! tabID =
    Some origin
  /\ type <$> TabsStorage.replay
                (trace (onWelcomeFollowUpClicked props tabID "assign-code-task")) tabs
              !! newTabId = Some "wb"
  /\ In (OnUpdateTabType tabID)
       (trace (onWelcomeFollowUpClicked props tabID "assign-code-task"))
  /\ (forall other : string,
        other <> tabID -> other <> newTabId ->
        TabsStorage.replay
          (trace (onWelcomeFollowUpClicked props tabID "assign-code-task")) tabs !! other =
        tabs !! other).
Proof.
  intros Hnew Horigin Htyped Hfresh.
  assert (Hne : newTabId <> tabID) by (intros ->; congruence).
  rewrite (assign_code_task_calls _ _ _ Hnew).
  split; [| split; [| split]].
  - unfold TabsStorage.replay, trace. simpl. unfold TabsStorage.addTab. simpl.
    unfold TabsStorage.updateTabTypeFromUnknown at 2.
    rewrite lookup_insert_ne by exact Hne. rewrite Horigin, (eqb_ne _ _ Htyped).
    unfold TabsStorage.updateTabTypeFromUnknown. rewrite lookup_insert_eq. simpl.
    rewrite lookup_insert_ne by exact Hne. now rewrite lookup_insert_ne by exact Hne.
  - unfold TabsStorage.replay, trace. simpl. unfold TabsStorage.addTab. simpl.
    unfold TabsStorage.updateTabTypeFromUnknown at 2.
    rewrite lookup_insert_ne by exact Hne. rewrite Horigin, (eqb_ne _ _ Htyped).
    unfold TabsStorage.updateTabTypeFromUnknown. rewrite lookup_insert_eq. simpl.
    now rewrite lookup_insert_eq.
  - unfold trace. simpl. tauto.
  - intros other Ho Hn. apply replay_other. unfold trace. simpl.
    frame.
Qed.

Lemma assign_code_task_typed_origin_witness :
  TabsStorage.replay
    (trace (onWelcomeFollowUpClicked sample_props "tab-1" "assign-code-task")) typed_tabs
    !! "tab-1" = Some typed_origin
  /\ type <$> TabsStorage.replay
                (trace (onWelcomeFollowUpClicked sample_props "tab-1" "assign-code-task"))
                typed_tabs !! "tab-2" = Some "wb".
Proof.
  destruct (assign_code_task_typed_origin sample_props "tab-1" "tab-2" typed_tabs typed_origin)
    as (H1 & H2 & _).
  - reflexivity.
  - vm_compute. reflexivity.
  - discriminate.
  - vm_compute. reflexivity.
  - split; [exact H1 | exact H2].
Defined.

(** X20: a welcome follow-up, whatever its type and whatever the chat
    surface answers, leaves the record of every tab as it is except
    those of the tab clicked on and of the tab the chat surface has
    opened for it. *)
Theorem welcome_click_is_local (props : Props) (tabID welcomeFollowUpType : string)
  (tabs : gmap string Tab) (other : string) :
  other <> tabID ->
  mynahUI_updateStore props EmptyString (task_tab_data props) <> Some other ->
  TabsStorage.replay
    (trace (onWelcomeFollowUpClicked props tabID welcomeFollowUpType)) tabs !! other =
  tabs !! other.
Proof.
  intros Hne Hnew. apply replay_other. unfold onWelcomeFollowUpClicked, updateStore.
  fold (task_tab_data props).
  destruct (String.eqb welcomeFollowUpType "assign-code-task").
  - destruct (mynahUI_updateStore props EmptyString (task_tab_data props)) as [newTabId|];
      unfold trace; simpl; frame.
  - destruct (String.eqb welcomeFollowUpType "continue-to-chat"); unfold trace; simpl; frame.
Qed.

Lemma welcome_click_is_local_witness :
  TabsStorage.replay
    (trace (onWelcomeFollowUpClicked sample_props "tab-3" "assign-code-task")) sample_tabs
    !! "tab-1" = Some sample_origin.
Proof.
  rewrite (welcome_click_is_local sample_props "tab-3" "assign-code-task" sample_tabs "tab-1").
  - vm_compute. reflexivity.
  - discriminate.
  - discriminate.
Defined.

End FollowUpsCallsFacts.

(** ** Editing one setting *)

Module EditSettingFacts.

Import CreateWorkspace EditSetting.

Ltac edit :=
  unfold editSetting, bind in *; answers.

Ltac known_answers :=
  repeat match goal with
         | Hx : ?x = Ok _ |- context [?x] => rewrite Hx
         | Hx : ?x = Throw _ |- context [?x] => rewrite Hx
         end;
  simpl.

(** X15: editing a setting shows one prompt, the one of the field
    named, seeded with the value the field has; the settings returned
    differ from the given ones in that field at most, and hold the
    response there when it is valid; when the response is not valid
    they are the given settings; a rejected prompt fails the edit. *)
Theorem editSetting_one_field (prompters : Prompters) (settings : WorkspaceSettings)
  (key : Key) :
  (exists ev,
     trace (editSetting prompters settings key) = [ev]
     /\ prompted_key ev = key
     /\ seeded_with settings ev
     /\ (forall e, failure_of ev = Some e ->
           outcome (editSetting prompters settings key) = Throw e)
     /\ (forall s', outcome (editSetting prompters settings key) = Ok s' ->
           agree_off key settings s'
           /\ answered_in s' ev
           /\ (declined ev = true -> s' = settings))).
Proof.
  destruct key; edit; eexists; (split; [reflexivity |]);
    unfold agree_off; simpl; repeat split; intros; simplify_eq/=; auto.
Qed.

(** X16: edits of two different settings do not depend on their order:
    when editing one field and then the other succeeds, editing them
    the other way round succeeds with the same settings. *)
Theorem editSetting_commutes (prompters : Prompters) (settings s12 : WorkspaceSettings)
  (k1 k2 : Key) :
  k1 <> k2 ->
  outcome (bind (editSetting prompters settings k1)
             (fun s => editSetting prompters s k2)) = Ok s12 ->
  outcome (bind (editSetting prompters settings k2)
             (fun s => editSetting prompters s k1)) = Ok s12.
Proof.
  intros Hne H. destruct k1, k2; try contradiction; edit; known_answers; congruence.
Qed.

Lemma editSetting_commutes_witness :
  outcome (bind (editSetting sample_prompters sample_settings K_inactivityTimeoutMinutes)
             (fun s => editSetting sample_prompters s K_alias)) =
    Ok {| alias := Some "review";
          instanceType := "dev.standard1.small";
          inactivityTimeoutMinutes := 30;
          persistentStorage := 16 |}.
Proof.
  apply (editSetting_commutes sample_prompters sample_settings _
           K_alias K_inactivityTimeoutMinutes).
  - discriminate.
  - reflexivity.
Defined.

End EditSettingFacts.

(** ** More on the wizard panel *)

Module PanelListenerFacts.

Import Panel PanelFacts.

(** X17: in every state the wizard can reach, at most one dispose
    listener is registered and at most one webview is open; a listener
    that is registered sits on the webview of the instance the module
    refers to, that webview is open, and the listener is the one
    subscription kept; and no subscription is kept without a listener
    and an open webview. *)
Theorem one_dispose_listener (steps : list Step) :
  length (listeners (run steps)) <= 1
  /\ length (webviews (run steps)) <= 1
  /\ (forall p r, In (p, r) (listeners (run steps)) ->
        activePanel (run steps) = Some p
        /\ subscriptions (run steps) = Some [r]
        /\ webviews (run steps) = [p])
  /\ (subscriptions (run steps) = None <-> listeners (run steps) = [])
  /\ (webviews (run steps) = [] <-> listeners (run steps) = []).
Proof.
  destruct (shape_run steps) as [cr rg cs | p cr rg cs Hp | p r cr rg cs Hp Hr];
    cbn; repeat split; try lia; try tauto; try discriminate;
    intros; destruct_or?; simplify_eq/=; auto; try contradiction.
Qed.

(** X18: a request whose show fails fails with the error of the show
    and registers nothing: listeners, subscriptions and open webviews
    are as before, and the instance stays referred to, so that the next
    request, when its show succeeds, opens that same instance and puts
    the one listener on it. *)
Theorem failed_show_is_retried (steps : list Step) (e : Exn) :
  fst (showCreateWorkspace (Throw e) (run steps)) = Throw e
  /\ listeners (step (run steps) (Request (Throw e))) = listeners (run steps)
  /\ subscriptions (step (run steps) (Request (Throw e))) = subscriptions (run steps)
  /\ webviews (step (run steps) (Request (Throw e))) = webviews (run steps)
  /\ exists p,
       activePanel (step (run steps) (Request (Throw e))) = Some p
       /\ activePanel (step (step (run steps) (Request (Throw e))) (Request (Ok tt))) = Some p
       /\ webviews (step (step (run steps) (Request (Throw e))) (Request (Ok tt))) = [p]
       /\ exists r,
            listeners (step (step (run steps) (Request (Throw e))) (Request (Ok tt))) =
              [(p, r)].
Proof.
  split.
  - unfold showCreateWorkspace. destruct (activePanel_or_new (run steps)). reflexivity.
  - destruct (shape_run steps) as [cr rg cs | p cr rg cs Hp | p r cr rg cs Hp Hr].
    + rewrite step_idle_request. lazy iota beta. rewrite step_pending_request.
      cbn. repeat split. eexists. repeat split. eexists. reflexivity.
    + rewrite step_pending_request. lazy iota beta. rewrite step_pending_request.
      cbn. repeat split. eexists. repeat split. eexists. reflexivity.
    + rewrite !step_opened_request.
      cbn. repeat split. eexists. repeat split. eexists. reflexivity.
Qed.

End PanelListenerFacts.
